(** * The YouTube downloader microservice (app.py): model and properties

    A shallow embedding of [app.py]: the Flask route table, the view
    [download_video] and the helpers it calls.  Python values are an
    inductive type, exceptions and early [return]s are results of a small
    state-and-exception monad, and the outside world (the downloader
    subprocess, the file system, the S3 store, the [json] and [uuid]
    modules) is an environment record that the view is run against. *)

From Stdlib Require Import ZArith List String Ascii Bool Lia.
From Stdlib Require Import SpecFloat DecimalString.
Import ListNotations.

Local Open Scope string_scope.
Local Open Scope Z_scope.

Set Warnings "-register-all".

(** ** Python values *)

(** The Python objects that [request.get_json()] and [json.loads] can
    produce.  A [dict] is an association list (first binding wins), a
    [float] is an IEEE-754 double in the representation of [SpecFloat].
    One [ascii] of a [string] stands for one character of a Python [str]. *)
Inductive pyobj : Type :=
| PyNone
| PyBool (b : bool)
| PyInt (z : Z)
| PyFloat (f : spec_float)
| PyStr (s : string)
| PyList (l : list pyobj)
| PyDict (d : list (string * pyobj)).

(** The exceptions that can travel through the view. *)
Inductive pyexc : Type :=
| JSONDecodeError
| IndexError
| KeyError
| AttributeError
| TypeError
| ValueError
| OverflowError
| FileNotFoundError
| HTTPException (code : Z)
| OtherError (msg : string).

(** [bool(x)]: the truth value Python's [not] and [if] test. *)
Definition py_truthy (o : pyobj) : bool :=
  match o with
  | PyNone => false
  | PyBool b => b
  | PyInt z => negb (z =? 0)
  | PyFloat (S754_zero _) => false
  | PyFloat _ => true
  | PyStr EmptyString => false
  | PyStr _ => true
  | PyList [] => false
  | PyList _ => true
  | PyDict [] => false
  | PyDict _ => true
  end.

(** Lookup in a [dict]. *)
Fixpoint dict_get (d : list (string * pyobj)) (k : string) : option pyobj :=
  match d with
  | [] => None
  | (k', v) :: d' => if String.eqb k' k then Some v else dict_get d' k
  end.

(** [o.get(k, default)]: only a [dict] has the method; on every other
    value the attribute lookup raises [AttributeError]. *)
Definition py_get (o : pyobj) (k : string) (default : pyobj) : pyexc + pyobj :=
  match o with
  | PyDict d =>
      match dict_get d k with
      | Some v => inr v
      | None => inr default
      end
  | _ => inl AttributeError
  end.

(** [o[k]] for a string key [k], as the view uses it on the request data. *)
Definition py_getitem (o : pyobj) (k : string) : pyexc + pyobj :=
  match o with
  | PyDict d =>
      match dict_get d k with
      | Some v => inr v
      | None => inl KeyError
      end
  | _ => inl TypeError
  end.

(** [int(f)] for a float: truncation toward zero; an infinity raises
    [OverflowError], a NaN [ValueError]. *)
Definition py_int_of_float (f : spec_float) : pyexc + Z :=
  match f with
  | S754_zero _ => inr 0
  | S754_infinity _ => inl OverflowError
  | S754_nan => inl ValueError
  | S754_finite s m e =>
      let mag := if 0 <=? e then Z.pos m * 2 ^ e else Z.pos m / 2 ^ (- e) in
      inr (if s then - mag else mag)
  end.

(** ** String operations of the Python [str] type *)

Definition string_rev (s : string) : string :=
  string_of_list_ascii (rev (list_ascii_of_string s)).

Fixpoint lstrip_with (p : ascii -> bool) (s : string) : string :=
  match s with
  | EmptyString => EmptyString
  | String c s' => if p c then lstrip_with p s' else s
  end.

Definition rstrip_with (p : ascii -> bool) (s : string) : string :=
  string_rev (lstrip_with p (string_rev s)).

(** [s.rstrip("/")] *)
Definition rstrip_slash (s : string) : string :=
  rstrip_with (fun c => Ascii.eqb c "/"%char) s.

(** [str.isspace] on one character (code points below 256). *)
Definition is_space (c : ascii) : bool :=
  let n := nat_of_ascii c in
  ((9 <=? n) && (n <=? 13) || (28 <=? n) && (n <=? 32)
   || (n =? 133) || (n =? 160))%nat.

(** [s.strip()] *)
Definition py_strip (s : string) : string :=
  rstrip_with is_space (lstrip_with is_space s).

(** [s.split(sep)] for a one-character separator: never the empty list. *)
Fixpoint py_split (sep : ascii) (s : string) : list string :=
  match s with
  | EmptyString => [EmptyString]
  | String c s' =>
      if Ascii.eqb c sep then EmptyString :: py_split sep s'
      else match py_split sep s' with
           | h :: t => String c h :: t
           | [] => [String c EmptyString]
           end
  end.

(** [l[-1]] *)
Definition py_last {A : Type} (l : list A) : pyexc + A :=
  match rev l with
  | [] => inl IndexError
  | x :: _ => inr x
  end.

(** [s.endswith(suffix)] *)
Definition py_endswith (s suffix : string) : bool :=
  let n := String.length s in
  let k := String.length suffix in
  if (k <=? n)%nat then String.eqb (substring (n - k) k s) suffix else false.

(** [s.endswith((a, b, c))] *)
Definition py_endswith_any (s : string) (suffixes : list string) : bool :=
  existsb (py_endswith s) suffixes.

(** [s[:n]] *)
Definition py_take (n : nat) (s : string) : string := substring 0 n s.

(** [os.path.join(a, b)] on POSIX. *)
Definition os_path_join (a b : string) : string :=
  if String.prefix "/" b then b
  else if String.eqb a EmptyString then b
  else if py_endswith a "/" then a ++ b
  else a ++ "/" ++ b.

Definition newline : ascii := "010"%char.

(** [k] copies of the character [c]. *)
Fixpoint copies (k : nat) (c : ascii) : string :=
  match k with
  | O => EmptyString
  | S k' => String c (copies k' c)
  end.

(** [str(z)] for an [int]. *)
Definition str_of_int (z : Z) : string := NilZero.string_of_int (Z.to_int z).

(** ** The environment of a request *)

(** The file system as the view sees it: [listing d] is what
    [os.listdir(d)] returns when [d] is a directory, [size p] what
    [os.path.getsize(p)] returns when [p] exists (the size of a file, for
    which the log line of line 167 cannot fail). *)
Record FS : Type := {
  listing : string -> option (list string);
  size : string -> option Z
}.

(** [p] lies under directory [d]. *)
Definition under (d p : string) : bool := String.prefix (d ++ "/") p.

(** Creating the empty directory [d]. *)
Definition fs_mkdir (d : string) (fs : FS) : FS :=
  {| listing := fun p => if String.eqb p d then Some [] else listing fs p;
     size := size fs |}.

(** Removing directory [d] with everything under it, as the exit of
    [tempfile.TemporaryDirectory] does. *)
Definition fs_rmtree (d : string) (fs : FS) : FS :=
  {| listing := fun p =>
       if String.eqb p d || under d p then None else listing fs p;
     size := fun p => if under d p then None else size fs p |}.

(** What [subprocess.run(cmd, capture_output=True, text=True, timeout=t)]
    can do: raise [TimeoutExpired], return a [CompletedProcess], or raise
    something else (the tool is not on PATH, say). *)
Inductive ProcOutcome : Type :=
| TimeoutExpired
| CompletedProcess (returncode : Z) (stdout stderr : string)
| RunError (e : pyexc).

(** The keyword arguments of [boto3.client("s3", ...)]. *)
Record S3Client : Type := {
  endpoint_url : string;
  aws_access_key_id : string;
  aws_secret_access_key : string;
  signature_version : string;
  region_name : string
}.

(** Everything outside the view.  An exception of the storage client is
    represented by its message [str(e)], the only part the view uses. *)
Record Env : Type := {
  (** [str(uuid.uuid4())] *)
  uuid4_str : string;
  (** the path [tempfile.TemporaryDirectory()] creates *)
  mkdtemp : FS -> string;
  (** the downloader: outcome and the file system it leaves *)
  subprocess_run : list string -> Z -> FS -> ProcOutcome * FS;
  (** [boto3.client]: [Some msg] when it raises *)
  boto3_client : S3Client -> option string;
  (** [s3.upload_file(file, bucket, key, ExtraArgs={"ContentType": ct})]:
      [Some msg] when it raises *)
  upload_file : S3Client -> string -> string -> string -> string -> FS ->
                option string * FS;
  (** [json.loads] *)
  json_loads : string -> pyexc + pyobj;
  (** [int(s)] for a [str], [None] when it raises [ValueError] *)
  int_of_str : string -> option Z;
  (** [str(o)] for a float, a list or a dict *)
  repr : pyobj -> string
}.

(** The module-level settings, read-only while requests are handled. *)
Record ServiceConfig : Type := {
  MINIO_ENDPOINT : string;
  MINIO_ACCESS_KEY : string;
  MINIO_SECRET_KEY : string;
  MINIO_BUCKET : string;
  API_SECRET : string
}.

(** The parts of the Flask [request] the view reads: the value of the
    Authorization header when there is one, and what
    [request.get_json()] returns or raises. *)
Record Request : Type := {
  authorization : option string;
  get_json : pyexc + pyobj
}.

(** A view's return value: the [jsonify]-ed object and the status code. *)
Record Response : Type := {
  body : list (string * pyobj);
  status : Z
}.

(** The calls the view makes to the outside, in order. *)
Inductive Event : Type :=
| EvMkdtemp (d : string)
| EvRun (cmd : list string) (timeout : Z) (o : ProcOutcome)
| EvListdir (d : string) (names : list string)
| EvGetsize (p : string) (n : Z)
| EvUpload (c : S3Client) (file bucket key content_type : string)
           (err : option string)
| EvCleanup (d : string).

Record World : Type := {
  w_fs : FS;
  w_log : list Event
}.

Definition emit (ev : Event) (w : World) : World :=
  {| w_fs := w_fs w; w_log := (w_log w ++ [ev])%list |}.

(** ** The monad of the view: state, early [return], exceptions *)

Inductive step (A : Type) : Type :=
| Val (a : A)
| Return (r : Response)
| Raise (e : pyexc).
Arguments Val {A} a.
Arguments Return {A} r.
Arguments Raise {A} e.

Definition M (A : Type) : Type := World -> step A * World.

Definition ret {A : Type} (a : A) : M A := fun w => (Val a, w).

Definition bind {A B : Type} (m : M A) (k : A -> M B) : M B :=
  fun w =>
    match m w with
    | (Val a, w') => k a w'
    | (Return r, w') => (Return r, w')
    | (Raise e, w') => (Raise e, w')
    end.

(** [return jsonify(b), st] *)
Definition py_return {A : Type} (b : list (string * pyobj)) (st : Z) : M A :=
  fun w => (Return {| body := b; status := st |}, w).

Definition raise {A : Type} (e : pyexc) : M A := fun w => (Raise e, w).

(** An expression that may raise, run as a statement. *)
Definition lift {A : Type} (x : pyexc + A) : M A :=
  match x with
  | inl e => raise e
  | inr a => ret a
  end.

Declare Scope view_scope.
Delimit Scope view_scope with view.
Notation "x <- m ;; k" := (bind m (fun x => k))
  (at level 61, m at next level, right associativity) : view_scope.
Notation "m ;;; k" := (bind m (fun _ => k))
  (at level 61, right associativity) : view_scope.

(** Sequencing of expressions that may raise. *)
Definition ebind {A B : Type} (x : pyexc + A) (k : A -> pyexc + B) : pyexc + B :=
  match x with
  | inl e => inl e
  | inr a => k a
  end.

(** ** Formatting and conversion of values *)

(** [f"{o}"], that is [str(o)]. *)
Definition py_format (env : Env) (o : pyobj) : string :=
  match o with
  | PyStr s => s
  | PyNone => "None"
  | PyBool true => "True"
  | PyBool false => "False"
  | PyInt z => str_of_int z
  | _ => repr env o
  end.

(** [int(o)] *)
Definition py_int (env : Env) (o : pyobj) : pyexc + Z :=
  match o with
  | PyInt z => inr z
  | PyBool b => inr (if b then 1 else 0)
  | PyFloat f => py_int_of_float f
  | PyStr s =>
      match int_of_str env s with
      | Some z => inr z
      | None => inl ValueError
      end
  | PyNone | PyList _ | PyDict _ => inl TypeError
  end.

(** [" ".join(cmd)] raises [TypeError] unless every item is a [str];
    the items are what is then handed to [subprocess.run]. *)
Fixpoint all_str (l : list pyobj) : pyexc + list string :=
  match l with
  | [] => inr []
  | PyStr s :: l' => ebind (all_str l') (fun r => inr (s :: r))
  | _ :: _ => inl TypeError
  end.

(** ** The route table *)

Inductive Method : Type := GET | POST | PUT | DELETE | HEAD | OPTIONS.

Definition method_eqb (a b : Method) : bool :=
  match a, b with
  | GET, GET | POST, POST | PUT, PUT | DELETE, DELETE
  | HEAD, HEAD | OPTIONS, OPTIONS => true
  | _, _ => false
  end.

Inductive Endpoint : Type := health | download_video_endpoint.

(** The [@app.route] decorators of the module, in order. *)
Definition url_map : list (string * list Method * Endpoint) :=
  [ ("/health", [GET], health);
    ("/api/download", [POST], download_video_endpoint) ].

Inductive Dispatch : Type :=
| View (e : Endpoint)
| AutomaticOptions
| NotFound
| MethodNotAllowed.

(** Which view function of the module a request line reaches.  As Flask
    does, a rule that allows GET also serves HEAD through the same view,
    and OPTIONS on a known path is answered by Flask itself, without
    calling the view.  Only the rules of the module are looked at: the
    rule for static files that Flask adds by itself and the redirects of
    the URL matcher are left out, so that an answer other than [View] says
    no more than that no view of the module is called. *)
Fixpoint dispatch_in (rules : list (string * list Method * Endpoint))
         (m : Method) (path : string) : Dispatch :=
  match rules with
  | [] => NotFound
  | (p, ms, e) :: rules' =>
      if String.eqb p path then
        if existsb (method_eqb m) ms then View e
        else if method_eqb m HEAD && existsb (method_eqb GET) ms then View e
        else if method_eqb m OPTIONS then AutomaticOptions
        else MethodNotAllowed
      else dispatch_in rules' m path
  end.

Definition dispatch (m : Method) (path : string) : Dispatch :=
  dispatch_in url_map m path.

(** ** The storage client factory *)

Definition get_s3_client (cfg : ServiceConfig) : S3Client :=
  {| endpoint_url := rstrip_slash (MINIO_ENDPOINT cfg);
     aws_access_key_id := MINIO_ACCESS_KEY cfg;
     aws_secret_access_key := MINIO_SECRET_KEY cfg;
     signature_version := "s3v4";
     region_name := "us-east-1" |}.

(** ** The view [download_video] *)

Section View.

Variable cfg : ServiceConfig.
Variable env : Env.

Local Open Scope view_scope.

(** [with tempfile.TemporaryDirectory() as tmpdir: body]: the directory is
    created, the body runs, and whatever way the body ends (falling
    through, [return], exception) the directory is removed. *)
Definition with_TemporaryDirectory {A : Type} (block : string -> M A) : M A :=
  fun w =>
    let d := mkdtemp env (w_fs w) in
    let w1 := emit (EvMkdtemp d) {| w_fs := fs_mkdir d (w_fs w); w_log := w_log w |} in
    let (r, w2) := block d w1 in
    (r, emit (EvCleanup d) {| w_fs := fs_rmtree d (w_fs w2); w_log := w_log w2 |}).

(** The [try: subprocess.run(...) except subprocess.TimeoutExpired] block. *)
Definition run_downloader (cmd : list string) : M (Z * string * string) :=
  fun w =>
    let (o, fs') := subprocess_run env cmd 600 (w_fs w) in
    let w' := emit (EvRun cmd 600 o) {| w_fs := fs'; w_log := w_log w |} in
    match o with
    | TimeoutExpired =>
        py_return [("error", PyStr "Download timed out (10 min limit)")] 504 w'
    | CompletedProcess rc out err => (Val (rc, out, err), w')
    | RunError e => (Raise e, w')
    end.

(** The exceptions that [except (json.JSONDecodeError, IndexError)]
    catches. *)
Definition caught_by_parse_handler (e : pyexc) : bool :=
  match e with
  | JSONDecodeError | IndexError => true
  | _ => false
  end.

(** [result.stdout.strip().split("\n")[-1]], the text handed to
    [json.loads]. *)
Definition last_line (stdout : string) : pyexc + string :=
  py_last (py_split newline (py_strip stdout)).

(** The two statements under [try:], lines 151-152. *)
Definition metadata_duration (stdout : string) : pyexc + pyobj :=
  ebind (last_line stdout) (fun line =>
  ebind (json_loads env line) (fun metadata =>
  py_get metadata "duration" (PyInt 0))).

(** The [try: ... except (json.JSONDecodeError, IndexError)] block: the
    value bound to [duration]. *)
Definition parse_duration (stdout : string) : M pyobj :=
  match metadata_duration stdout with
  | inr duration => ret duration
  | inl e => if caught_by_parse_handler e then ret (PyInt 0) else raise e
  end.

Definition os_listdir (d : string) : M (list string) :=
  fun w =>
    match listing (w_fs w) d with
    | Some names => (Val names, emit (EvListdir d names) w)
    | None => (Raise FileNotFoundError, w)
    end.

Definition os_path_getsize (p : string) : M Z :=
  fun w =>
    match size (w_fs w) p with
    | Some n => (Val n, emit (EvGetsize p n) w)
    | None => (Raise FileNotFoundError, w)
    end.

(** The [try: s3 = get_s3_client(); s3.upload_file(...) except Exception]
    block: [Some msg] when the handler ran. *)
Definition try_upload (local_file object_key : string) : M (option string) :=
  fun w =>
    let s3 := get_s3_client cfg in
    match boto3_client env s3 with
    | Some msg => (Val (Some msg), w)
    | None =>
        let (err, fs') :=
          upload_file env s3 local_file (MINIO_BUCKET cfg) object_key
                      "video/mp4" (w_fs w) in
        (Val err,
         emit (EvUpload s3 local_file (MINIO_BUCKET cfg) object_key "video/mp4" err)
              {| w_fs := fs'; w_log := w_log w |})
    end.

Definition video_extensions : list string := [".mp4"; ".mkv"; ".webm"].

(** The command line of the downloader. *)
Definition yt_dlp_cmd (output_path : string) (url : pyobj) : list pyobj :=
  [ PyStr "yt-dlp";
    PyStr "--no-playlist";
    PyStr "--js-runtimes"; PyStr "node";
    PyStr "--force-ipv4";
    PyStr "--extractor-args"; PyStr "youtube:player_client=web_music,web";
    PyStr "--user-agent";
    PyStr "Mozilla/5.0 (Windows NT 10.0; Win64; x64) AppleWebKit/537.36 (KHTML, like Gecko) Chrome/131.0.0.0 Safari/537.36";
    PyStr "-f"; PyStr "bestvideo[ext=mp4]+bestaudio[ext=m4a]/best[ext=mp4]/best";
    PyStr "--merge-output-format"; PyStr "mp4";
    PyStr "-o"; PyStr output_path;
    PyStr "--no-progress";
    PyStr "--print-json";
    url ].

(** The body of the [with] block, lines 111-190. *)
Definition download_and_upload (url video_id : pyobj) (tmpdir : string)
  : M Response :=
  let output_path := os_path_join tmpdir (py_format env video_id ++ ".%(ext)s") in
  cmd <- lift (all_str (yt_dlp_cmd output_path url)) ;;
  result <- run_downloader cmd ;;
  let '(returncode, stdout, stderr) := result in
  if negb (returncode =? 0) then
    py_return [("error", PyStr ("Download failed: " ++ py_take 500 stderr))] 500
  else
    duration <- parse_duration stdout ;;
    names <- os_listdir tmpdir ;;
    let downloaded_files :=
      filter (fun f => py_endswith_any f video_extensions) names in
    match downloaded_files with
    | [] => py_return [("error", PyStr "No video file found after download")] 500
    | first :: _ =>
        let local_file := os_path_join tmpdir first in
        file_size <- os_path_getsize local_file ;;
        let object_key := "youtube/" ++ py_format env video_id ++ ".mp4" in
        failure <- try_upload local_file object_key ;;
        match failure with
        | Some msg =>
            py_return [("error", PyStr ("Upload to storage failed: " ++ msg))] 500
        | None =>
            let source_url :=
              rstrip_slash (MINIO_ENDPOINT cfg) ++ "/" ++ MINIO_BUCKET cfg
              ++ "/" ++ object_key in
            seconds <- lift (py_int env duration) ;;
            ret {| body := [ ("sourceUrl", PyStr source_url);
                             ("duration", PyInt seconds);
                             ("fileSize", PyInt file_size) ];
                   status := 200 |}
        end
    end.

(** The auth check, lines 96-99. *)
Definition check_auth (req : Request) : M unit :=
  if py_truthy (PyStr (API_SECRET cfg)) then
    let auth := match authorization req with
                | Some h => h
                | None => EmptyString
                end in
    if negb (String.eqb auth ("Bearer " ++ API_SECRET cfg)) then
      py_return [("error", PyStr "Unauthorized")] 401
    else ret tt
  else ret tt.

(** [data.get("videoId", str(uuid.uuid4())[:8])], line 106. *)
Definition resolve_video_id (data : pyobj) : pyexc + pyobj :=
  py_get data "videoId" (PyStr (py_take 8 (uuid4_str env))).

(** Lines 101-190: everything after the auth check. *)
Definition validate_and_process (req : Request) : M Response :=
  data <- lift (get_json req) ;;
  missing <- (if negb (py_truthy data) then ret true
              else (u <- lift (py_get data "url" PyNone) ;;
                    ret (negb (py_truthy u)))) ;;
  if missing : bool then
    py_return [("error", PyStr "url is required")] 400
  else
    url <- lift (py_getitem data "url") ;;
    video_id <- lift (resolve_video_id data) ;;
    with_TemporaryDirectory (download_and_upload url video_id).

Definition download_video_view (req : Request) : M Response :=
  check_auth req ;;; validate_and_process req.

End View.

(** How a call of the view ends for Flask: a response, or an exception
    that leaves the view. *)
Inductive Outcome : Type :=
| Responded (r : Response)
| Raised (e : pyexc).

Record Run : Type := {
  outcome : Outcome;
  final_fs : FS;
  trace : list Event
}.

(** Running a view function for one request, from file system [fs]. *)
Definition run_view (view : M Response) (fs : FS) : Run :=
  let (r, w) := view {| w_fs := fs; w_log := [] |} in
  {| outcome := match r with
                | Val resp | Return resp => Responded resp
                | Raise e => Raised e
                end;
     final_fs := w_fs w;
     trace := w_log w |}.

(** One call of the view [download_video]. *)
Definition download_video (cfg : ServiceConfig) (env : Env) (req : Request)
           (fs : FS) : Run :=
  run_view (download_video_view cfg env req) fs.

(** ** Observations on a run *)

Definition is_upload (ev : Event) : bool :=
  match ev with
  | EvUpload _ _ _ _ _ _ => true
  | _ => false
  end.

(** The storage upload calls of a run. *)
Definition upload_calls (tr : list Event) : list Event := filter is_upload tr.


(** [seconds] is the duration recovered from the downloader's output:
    the integer value of the "duration" entry of the record on the last
    line, and 0 when that line does not decode or the record has no such
    entry. *)
Definition recovered_duration (env : Env) (stdout : string) (seconds : Z) : Prop :=
  exists line,
    last_line stdout = inr line
    /\ match json_loads env line with
       | inl e => (e = JSONDecodeError \/ e = IndexError) /\ seconds = 0
       | inr (PyDict metadata) =>
           match dict_get metadata "duration" with
           | Some v => py_int env v = inr seconds
           | None => seconds = 0
           end
       | inr _ => False
       end.

(** ** Sample configurations and environments *)

Module Sample.

Definition dq : string := String "034"%char EmptyString.

Definition cfg (secret : string) : ServiceConfig :=
  {| MINIO_ENDPOINT := "https://minio.example.com/";
     MINIO_ACCESS_KEY := "access";
     MINIO_SECRET_KEY := "secret";
     MINIO_BUCKET := "source";
     API_SECRET := secret |}.

Definition empty_fs : FS :=
  {| listing := fun _ => None; size := fun _ => None |}.

Definition tmp : string := "/tmp/tmpk3v9x_2a".

(** Directory [d] holding [files], on top of [fs]. *)
Definition with_files (d : string) (files : list (string * Z)) (fs : FS) : FS :=
  {| listing := fun p =>
       if String.eqb p d then Some (map fst files) else listing fs p;
     size := fun p =>
       match find (fun f => String.eqb (os_path_join d (fst f)) p) files with
       | Some f => Some (snd f)
       | None => size fs p
       end |}.

(** An environment in which the downloader ends with [o] and leaves
    [files] in the temporary directory, the upload ends with [upload_err],
    and [json.loads] decodes the documents of [docs] (and rejects every
    other text). *)
Definition env (o : ProcOutcome) (files : list (string * Z))
           (upload_err : option string) (docs : list (string * pyobj)) : Env :=
  {| uuid4_str := "1b4e28ba-2fa1-41d2-883f-0016d3cca427";
     mkdtemp := fun _ => tmp;
     subprocess_run := fun _ _ fs => (o, with_files tmp files fs);
     boto3_client := fun _ => None;
     upload_file := fun _ _ _ _ _ fs => (upload_err, fs);
     json_loads := fun s =>
       match find (fun kv => String.eqb (fst kv) s) docs with
       | Some kv => inr (snd kv)
       | None => inl JSONDecodeError
       end;
     int_of_str := fun s => option_map Z.of_int (NilZero.int_of_string s);
     repr := fun _ => "<object>" |}.

Definition request (auth : option string) (data : pyobj) : Request :=
  {| authorization := auth; get_json := inr data |}.

Definition watch_url : string := "https://www.youtube.com/watch?v=dQw4w9WgXcQ".

(** The one-line record the downloader prints, with [v] as the text of
    its duration entry. *)
Definition record (v : string) : string :=
  "{" ++ dq ++ "duration" ++ dq ++ ": " ++ v ++ "}".

Definition open_cfg : ServiceConfig := cfg EmptyString.

Definition video_request (video_id : string) : Request :=
  request None (PyDict [("url", PyStr watch_url); ("videoId", PyStr video_id)]).

(** The downloader leaves abc.mp4 and reports a duration of 212 seconds. *)
Definition good_env : Env :=
  env (CompletedProcess 0 (record "212" ++ String newline EmptyString) EmptyString)
      [("abc.info.json", 2048); ("abc.mp4", 1048576)] None
      [(record "212", PyDict [("duration", PyInt 212)])].

Definition good_response (video_id : string) : Response :=
  {| body := [ ("sourceUrl",
                PyStr ("https://minio.example.com/source/youtube/"
                       ++ video_id ++ ".mp4"));
               ("duration", PyInt 212);
               ("fileSize", PyInt 1048576) ];
     status := 200 |}.

(** The downloader leaves abc.mp4 and reports a null duration, as it does
    for a video whose length the extractor does not know. *)
Definition null_duration_env : Env :=
  env (CompletedProcess 0 (record "null" ++ String newline EmptyString) EmptyString)
      [("abc.mp4", 1048576)] None
      [(record "null", PyDict [("duration", PyNone)])].

(** The downloader exits with code 0, leaves no file, and the last line of
    its output is a JSON document that is not a record. *)
Definition no_record_env : Env :=
  env (CompletedProcess 0 "[]" EmptyString) [] None [("[]", PyList [])].

(** As [no_record_env], with a video file left behind. *)
Definition no_record_file_env : Env :=
  env (CompletedProcess 0 "[]" EmptyString) [("abc.mp4", 1048576)] None
      [("[]", PyList [])].

End Sample.

(** ** Module start-up: the settings and the config loader *)

(** [d[k] = v] on a [dict]: the binding of [k] is replaced where it is, a
    new key goes to the end. *)
Fixpoint dict_set (d : list (string * pyobj)) (k : string) (v : pyobj)
  : list (string * pyobj) :=
  match d with
  | [] => [(k, v)]
  | (k', v') :: d' =>
      if String.eqb k' k then (k', v) :: d' else (k', v') :: dict_set d' k v
  end.

(** [os.environ.get(name, default)] *)
Definition environ_get (environ : list (string * string)) (name default : string)
  : string :=
  match find (fun kv => String.eqb (fst kv) name) environ with
  | Some kv => snd kv
  | None => default
  end.

(** The settings the module assigns at lines 23-27, as the module's
    [globals()]. *)
Definition module_globals (environ : list (string * string))
  : list (string * pyobj) :=
  [ ("MINIO_ENDPOINT", PyStr (environ_get environ "MINIO_ENDPOINT" EmptyString));
    ("MINIO_ACCESS_KEY", PyStr (environ_get environ "MINIO_ACCESS_KEY" EmptyString));
    ("MINIO_SECRET_KEY", PyStr (environ_get environ "MINIO_SECRET_KEY" EmptyString));
    ("MINIO_BUCKET", PyStr (environ_get environ "MINIO_BUCKET" "source"));
    ("API_SECRET", PyStr (environ_get environ "API_SECRET" EmptyString)) ].

(** [CONFIG_SERVICE_URL], line 30. *)
Definition config_service_url (environ : list (string * string)) : string :=
  environ_get environ "APP_CONFIG_URL" EmptyString.

(** What [requests.get(url, timeout=t)] can do: raise, or return a
    response with its [ok] flag and what [res.json()] returns or raises. *)
Inductive HttpResult : Type :=
| RequestRaised (e : pyexc)
| HttpResponse (ok : bool) (json : pyexc + pyobj).

(** What the loader does that can be seen from outside: its requests and
    its log lines. *)
Inductive LoaderEvent : Type :=
| HttpGet (url : string) (timeout : Z)
| LogLoaded (config_key : string)
| LogFailed (config_key : string) (e : pyexc).

(** The dict [keys] of lines 41-46, in its iteration order: the key asked
    of the service and the name of the global it is stored in. *)
Definition config_keys : list (string * string) :=
  [ ("MINIO_ENDPOINT", "MINIO_ENDPOINT");
    ("MINIO_ACCESS_KEY", "MINIO_ACCESS_KEY");
    ("MINIO_SECRET_KEY", "MINIO_SECRET_KEY");
    ("YT_DLP_API_SECRET", "API_SECRET") ].

Section Loader.

(** The config service, as [requests.get] reaches it. *)
Variable requests_get : string -> Z -> HttpResult.

(** [f"{CONFIG_SERVICE_URL}/api/v1/config/{config_key}"] *)
Definition config_url (base config_key : string) : string :=
  base ++ "/api/v1/config/" ++ config_key.

(** The statements under [try:], lines 49-53, up to the assignment: the
    value to assign if there is one, or the exception raised. *)
Definition fetch_value (base config_key : string) : pyexc + option pyobj :=
  match requests_get (config_url base config_key) 5 with
  | RequestRaised e => inl e
  | HttpResponse ok json =>
      if ok then
        ebind json (fun data =>
        ebind (py_get data "value" PyNone) (fun value =>
        if py_truthy value then
          ebind (py_getitem data "value") (fun v => inr (Some v))
        else inr None))
      else inr None
  end.

(** One turn of the loop of lines 47-56, with its [except Exception]. *)
Definition load_one (base : string)
           (st : list (string * pyobj) * list LoaderEvent)
           (kv : string * string) : list (string * pyobj) * list LoaderEvent :=
  let (g, log) := st in
  let (config_key, var_name) := kv in
  let log1 := (log ++ [HttpGet (config_url base config_key) 5])%list in
  match fetch_value base config_key with
  | inr (Some v) => (dict_set g var_name v, (log1 ++ [LogLoaded config_key])%list)
  | inr None => (g, log1)
  | inl e => (g, (log1 ++ [LogFailed config_key e])%list)
  end.

(** [load_config_from_service()], lines 33-56: the globals it leaves and
    what it did.  ([import requests] is taken to succeed.) *)
Definition load_config_from_service (base : string) (g : list (string * pyobj))
  : list (string * pyobj) * list LoaderEvent :=
  if negb (py_truthy (PyStr base)) then (g, [])
  else fold_left (load_one base) config_keys (g, []).

(** Lines 23-30 and 194: the module import, from the process environment. *)
Definition module_startup (environ : list (string * string))
  : list (string * pyobj) * list LoaderEvent :=
  load_config_from_service (config_service_url environ) (module_globals environ).

End Loader.

(** The value the loader assigns for a key, if any. *)
Definition assigned (r : pyexc + option pyobj) : option pyobj :=
  match r with
  | inr (Some v) => Some v
  | _ => None
  end.

Definition is_http_get (ev : LoaderEvent) : bool :=
  match ev with
  | HttpGet _ _ => true
  | _ => false
  end.

(** ** Further observations on a run *)

Definition is_run (ev : Event) : bool :=
  match ev with
  | EvRun _ _ _ => true
  | _ => false
  end.

(** The downloader's command line for output template [output_path] and
    video address [url], lines 115-128. *)
Definition command_line (output_path url : string) : list string :=
  [ "yt-dlp"; "--no-playlist"; "--js-runtimes"; "node"; "--force-ipv4";
    "--extractor-args"; "youtube:player_client=web_music,web";
    "--user-agent";
    "Mozilla/5.0 (Windows NT 10.0; Win64; x64) AppleWebKit/537.36 (KHTML, like Gecko) Chrome/131.0.0.0 Safari/537.36";
    "-f"; "bestvideo[ext=mp4]+bestaudio[ext=m4a]/best[ext=mp4]/best";
    "--merge-output-format"; "mp4";
    "-o"; output_path;
    "--no-progress"; "--print-json";
    url ].

(** Every character of [s] is white space. *)
Fixpoint all_space (s : string) : bool :=
  match s with
  | EmptyString => true
  | String c s' => is_space c && all_space s'
  end.

(** [s] has no line break. *)
Fixpoint one_line (s : string) : bool :=
  match s with
  | EmptyString => true
  | String c s' => negb (Ascii.eqb c newline) && one_line s'
  end.

(** ** Sample services and environments for the start-up *)

Module StartupSample.

(** A service that knows the endpoint and the API secret, answers 404 for
    the access key and cannot be reached for the secret key. *)
Definition service (url : string) (timeout : Z) : HttpResult :=
  if String.eqb url "http://config:8080/api/v1/config/MINIO_ENDPOINT" then
    HttpResponse true (inr (PyDict [("value", PyStr "https://minio.internal/")]))
  else if String.eqb url "http://config:8080/api/v1/config/YT_DLP_API_SECRET" then
    HttpResponse true (inr (PyDict [("key", PyStr "YT_DLP_API_SECRET");
                                    ("value", PyStr "s3cret")]))
  else if String.eqb url "http://config:8080/api/v1/config/MINIO_ACCESS_KEY" then
    HttpResponse false (inr (PyDict [("error", PyStr "not found")]))
  else RequestRaised (OtherError "connection refused").

Definition environ : list (string * string) :=
  [ ("APP_CONFIG_URL", "http://config:8080");
    ("MINIO_ENDPOINT", "http://localhost:9000");
    ("MINIO_ACCESS_KEY", "minioadmin");
    ("MINIO_SECRET_KEY", "minioadmin");
    ("API_SECRET", "from-env") ].

(** The downloader leaves a Matroska file. *)
Definition mkv_env : Env :=
  Sample.env (CompletedProcess 0 EmptyString EmptyString)
             [("abc.mkv", 4096)] None [].

(** The upload is refused by the store. *)
Definition refused_env : Env :=
  Sample.env (CompletedProcess 0 EmptyString EmptyString)
             [("abc.mp4", 4096)] (Some "NoSuchBucket") [].

(** The storage client cannot be built. *)
Definition no_client_env : Env :=
  {| uuid4_str := uuid4_str refused_env;
     mkdtemp := mkdtemp refused_env;
     subprocess_run := subprocess_run refused_env;
     boto3_client := fun _ => Some "Invalid endpoint";
     upload_file := upload_file refused_env;
     json_loads := json_loads refused_env;
     int_of_str := int_of_str refused_env;
     repr := repr refused_env |}.

End StartupSample.

(** ** The duration, in the words of the spec *)






(** ** Sample outputs of the downloader *)

Module OutputSample.

(** Progress lines, then the record, with a duration of 212.9 seconds
    (the double 7490752817712333 * 2^-45), then a line break. *)
Definition stdout : string :=
  "[youtube] Extracting URL: dQw4w9WgXcQ" ++ String newline
    ("[download] Destination: abc.mp4" ++ String newline
       (Sample.record "212.9" ++ String newline EmptyString)).

Definition env : Env :=
  Sample.env (CompletedProcess 0 stdout EmptyString)
             [("abc.mp4", 1048576)] None
             [(Sample.record "212.9",
               PyDict [("duration",
                        PyFloat (S754_finite false 7490752817712333 (-45)))])].

(** The path after "-o" on a command line. *)
Fixpoint output_template (cmd : list string) : string :=
  match cmd with
  | [] => EmptyString
  | a :: rest =>
      match rest with
      | p :: _ => if String.eqb a "-o" then p else output_template rest
      | [] => EmptyString
      end
  end.

(** The file a downloader writes for the template [t]: the "%(ext)s" at
    its end is replaced with "mp4". *)
Definition output_file (t : string) : string :=
  substring 0 (String.length t - 7) t ++ "mp4".

Definition basename (p : string) : string :=
  match rev (py_split "/"%char p) with
  | name :: _ => name
  | [] => EmptyString
  end.

Definition dirname (p : string) : string :=
  substring 0 (String.length p - String.length (basename p) - 1) p.

(** The file system after a file of [n] bytes has been written at [p]. *)
Definition write_file (p : string) (n : Z) (fs : FS) : FS :=
  {| listing := fun d =>
       if String.eqb d (dirname p) then
         Some (match listing fs d with
               | Some names => names ++ [basename p]
               | None => [basename p]
               end)%list
       else listing fs d;
     size := fun q => if String.eqb q p then Some n else size fs q |}.

(** A downloader that honours "-o": it writes one MP4 file of 1048576
    bytes where the template says, and prints the record. *)
Definition honouring_env : Env :=
  {| uuid4_str := uuid4_str Sample.good_env;
     mkdtemp := mkdtemp Sample.good_env;
     subprocess_run := fun cmd _ fs =>
       (CompletedProcess 0 (Sample.record "212" ++ String newline EmptyString)
                         EmptyString,
        write_file (output_file (output_template cmd)) 1048576 fs);
     boto3_client := boto3_client Sample.good_env;
     upload_file := upload_file Sample.good_env;
     json_loads := json_loads Sample.good_env;
     int_of_str := int_of_str Sample.good_env;
     repr := repr Sample.good_env |}.

End OutputSample.

(** ** Case analysis of a run *)

(** Splits the equation [E : run = <unfolded view>] along the branches of
    the view, innermost test first. *)
Ltac split_eq E :=
  repeat (cbn [w_fs w_log] in E;
          match type of E with
          | context [match ?x with _ => _ end] =>
              lazymatch x with
              | context [match _ with _ => _ end] => fail
              | _ => destruct x eqn:?
              end
          end).

Ltac unfold_view_in E :=
  cbv beta iota delta
    [download_video run_view download_video_view validate_and_process
     check_auth download_and_upload with_TemporaryDirectory run_downloader
     parse_duration os_listdir os_path_getsize try_upload
     bind ret raise lift py_return emit] in E.

(** One goal per exit path of the run mentioned in the goal. *)
Ltac run_cases :=
  match goal with
  | |- context [download_video ?c ?e ?r ?f] =>
      let run := fresh "run" in
      let E := fresh "Erun" in
      remember (download_video c e r f) as run eqn:E;
      unfold_view_in E; split_eq E; subst run;
      cbn [outcome trace final_fs app w_fs w_log]
  | |- context [run_view (validate_and_process ?c ?e ?r) ?f] =>
      let run := fresh "run" in
      let E := fresh "Erun" in
      remember (run_view (validate_and_process c e r) f) as run eqn:E;
      unfold_view_in E; split_eq E; subst run;
      cbn [outcome trace final_fs app w_fs w_log]
  end.

(** Reads a hypothesis [In ev trace] on a concrete list of events. *)
Ltac in_trace :=
  cbn [In upload_calls filter is_upload];
  intros;
  repeat match goal with
         | H : _ \/ _ |- _ => destruct H
         | H : False |- _ => destruct H
         | H : @eq Event _ _ |- _ => first [discriminate H | inversion H; clear H; subst]
         end.

(** ** Facts about the string operations *)

Section StringFacts.

Example rstrip_slash_example :
  rstrip_slash "https://minio.example.com//" = "https://minio.example.com".
Proof. reflexivity. Qed.

Example last_line_example :
  last_line ("[download] 100%" ++ String newline (Sample.record "212")
             ++ String newline EmptyString)
  = inr (Sample.record "212").
Proof. reflexivity. Qed.

Example os_path_join_example :
  os_path_join Sample.tmp ("abc" ++ ".%(ext)s") = "/tmp/tmpk3v9x_2a/abc.%(ext)s".
Proof. reflexivity. Qed.

Example video_extension_example :
  filter (fun f => py_endswith_any f video_extensions)
         ["abc.info.json"; "abc.webm"; "abc.mp4"; "mp4"]
  = ["abc.webm"; "abc.mp4"].
Proof. reflexivity. Qed.

Example py_int_float_example :
  py_int_of_float (S754_finite false 849 (-2)) = inr 212
  /\ py_int_of_float (S754_finite true 849 (-2)) = inr (-212).
Proof. split; reflexivity. Qed.

Example good_run_example :
  outcome (download_video Sample.open_cfg Sample.good_env
             (Sample.video_request "abc") Sample.empty_fs)
  = Responded (Sample.good_response "abc").
Proof. vm_compute. reflexivity. Qed.

Lemma py_take_length (n : nat) (s : string) :
  (String.length (py_take n s) <= n)%nat.
Proof.
  unfold py_take. revert s.
  induction n as [|n IH]; intros [|c s]; cbn; try lia.
  specialize (IH s). lia.
Qed.

Lemma py_take_prefix (n : nat) (s : string) :
  String.prefix (py_take n s) s = true.
Proof.
  unfold py_take. revert s.
  induction n as [|n IH]; intros [|c s]; cbn; try reflexivity.
  rewrite IH. destruct (ascii_dec c c); congruence.
Qed.

Lemma py_take_short (n : nat) (s : string) :
  (String.length s <= n)%nat -> py_take n s = s.
Proof.
  unfold py_take. revert s.
  induction n as [|n IH]; intros [|c s]; cbn; intros H; try reflexivity; try lia.
  rewrite IH by lia. reflexivity.
Qed.



Lemma length_append (a b : string) :
  String.length (a ++ b) = (String.length a + String.length b)%nat.
Proof. induction a as [|c a IH]; cbn; congruence. Qed.

Lemma substring_append_right (a b : string) :
  substring (String.length a) (String.length b) (a ++ b) = b.
Proof.
  induction a as [|c a IH]; cbn; [|exact IH].
  induction b as [|c b IH]; cbn; [reflexivity|].
  f_equal. exact IH.
Qed.


Lemma append_assoc (a b c : string) : (a ++ b) ++ c = a ++ (b ++ c).
Proof. induction a as [|x a IH]; cbn; congruence. Qed.

Lemma append_empty_r (a : string) : a ++ EmptyString = a.
Proof. induction a as [|x a IH]; cbn; congruence. Qed.

Lemma string_of_list_ascii_app (l1 l2 : list ascii) :
  string_of_list_ascii (l1 ++ l2)
  = string_of_list_ascii l1 ++ string_of_list_ascii l2.
Proof. induction l1 as [|x l1 IH]; cbn; congruence. Qed.

Lemma list_ascii_of_string_app (a b : string) :
  list_ascii_of_string (a ++ b)
  = (list_ascii_of_string a ++ list_ascii_of_string b)%list.
Proof. induction a as [|x a IH]; cbn; congruence. Qed.

Lemma string_rev_append (a b : string) :
  string_rev (a ++ b) = string_rev b ++ string_rev a.
Proof.
  unfold string_rev.
  now rewrite list_ascii_of_string_app, rev_app_distr, string_of_list_ascii_app.
Qed.

Lemma string_rev_involutive (s : string) : string_rev (string_rev s) = s.
Proof.
  unfold string_rev.
  now rewrite list_ascii_of_string_of_list_ascii, rev_involutive,
    string_of_list_ascii_of_string.
Qed.

Lemma string_rev_copies (k : nat) (c : ascii) :
  string_rev (copies k c) = copies k c.
Proof.
  induction k as [|k IH]; [reflexivity|].
  change (copies (S k) c) with (String c EmptyString ++ copies k c) at 1.
  rewrite string_rev_append, IH.
  clear IH. induction k as [|k IH]; cbn in *; [reflexivity|].
  now rewrite IH.
Qed.

(** What stripping on the left removes is a run of one character when the
    test accepts only that character. *)
Lemma lstrip_with_char (c : ascii) (s : string) :
  exists k, s = copies k c ++ lstrip_with (fun x => Ascii.eqb x c) s
            /\ String.prefix (String c EmptyString)
                 (lstrip_with (fun x => Ascii.eqb x c) s) = false.
Proof.
  induction s as [|x s [k [IH1 IH2]]].
  - now exists O.
  - cbn [lstrip_with]. destruct (Ascii.eqb_spec x c) as [->|Hne].
    + exists (S k). cbn. split; [now f_equal | exact IH2].
    + exists O. split; [reflexivity|].
      cbn. destruct (ascii_dec c x); congruence.
Qed.

Lemma py_endswith_char (c : ascii) (s : string) :
  py_endswith s (String c EmptyString)
  = String.prefix (String c EmptyString) (string_rev s).
Proof.
  rewrite <- (string_rev_involutive s) at 1.
  destruct (string_rev s) as [|x r]; [reflexivity|].
  change (String x r) with (String x EmptyString ++ r).
  rewrite string_rev_append.
  change (string_rev (String x EmptyString)) with (String x EmptyString).
  unfold py_endswith. rewrite length_append. cbn [String.length].
  destruct (Nat.leb_spec 1 (String.length (string_rev r) + 1)); [|lia].
  replace (String.length (string_rev r) + 1 - 1)%nat
    with (String.length (string_rev r)) by lia.
  change 1%nat with (String.length (String x EmptyString)) at 1.
  rewrite (substring_append_right (string_rev r) (String x EmptyString)).
  cbn. destruct (ascii_dec c x) as [->|Hne].
  - rewrite Ascii.eqb_refl. now destruct r.
  - destruct (Ascii.eqb_spec x c); congruence.
Qed.

(** [rstrip("/")] removes every trailing slash and nothing else. *)
Lemma rstrip_slash_spec (s : string) :
  exists k, s = rstrip_slash s ++ copies k "/"%char
            /\ py_endswith (rstrip_slash s) "/" = false.
Proof.
  unfold rstrip_slash, rstrip_with.
  destruct (lstrip_with_char "/"%char (string_rev s)) as [k [H1 H2]].
  exists k. split.
  - apply (f_equal string_rev) in H1.
    rewrite string_rev_involutive, string_rev_append, string_rev_copies in H1.
    exact H1.
  - rewrite py_endswith_char, string_rev_involutive. exact H2.
Qed.

End StringFacts.

(** ** Routing *)

(** C3, as the spec states it, fails: a POST to /download matches no rule
    of the route table and never reaches the view. *)
Lemma C3_post_download_is_not_routed :
  dispatch POST "/download" = NotFound
  /\ dispatch POST "/download" <> View download_video_endpoint.
Proof. split; [reflexivity | discriminate]. Qed.

Lemma dispatch_download_inv (m : Method) (p : string) :
  dispatch m p = View download_video_endpoint -> m = POST /\ p = "/api/download".
Proof.
  unfold dispatch, url_map. cbn [dispatch_in].
  destruct (String.eqb_spec "/health" p) as [E|_].
  - destruct m; discriminate.
  - destruct (String.eqb_spec "/api/download" p) as [E|_]; [|discriminate].
    subst p. destruct m; cbn; intros H; try discriminate. now split.
Qed.

(** C3 (amended): the download operation is exposed at the route
    POST /api/download, and at no other method or path. *)
Theorem C3_download_route :
  dispatch POST "/api/download" = View download_video_endpoint
  /\ forall m p, dispatch m p = View download_video_endpoint ->
                 m = POST /\ p = "/api/download".
Proof. split; [reflexivity | exact dispatch_download_inv]. Qed.

Lemma C3_download_route_witness :
  dispatch POST "/api/download" = View download_video_endpoint
  /\ (POST = POST /\ "/api/download" = "/api/download").
Proof.
  split.
  - exact (proj1 C3_download_route).
  - apply (proj2 C3_download_route POST "/api/download"). reflexivity.
Defined.

(** ** Authentication *)

Lemma py_truthy_str (s : string) : s <> EmptyString -> py_truthy (PyStr s) = true.
Proof. destruct s; [congruence | reflexivity]. Qed.

(** The status codes the view can answer with once the auth check is
    passed. *)
Lemma validate_and_process_status cfg env req fs resp :
  outcome (run_view (validate_and_process cfg env req) fs) = Responded resp ->
  status resp = 200 \/ status resp = 400 \/ status resp = 500 \/ status resp = 504.
Proof.
  run_cases; intros H; inversion H; subst; cbn [status]; auto.
Qed.

(** C4: with an API secret configured, a request whose Authorization
    header is absent or is not exactly "Bearer <secret>" is answered 401
    before anything else happens; a request with the matching header runs
    exactly as validation and the download pipeline run, and is never
    answered 401. *)
Theorem C4_bearer_auth cfg env req fs :
  API_SECRET cfg <> EmptyString ->
  (authorization req <> Some ("Bearer " ++ API_SECRET cfg) ->
   outcome (download_video cfg env req fs)
   = Responded {| body := [("error", PyStr "Unauthorized")]; status := 401 |}
   /\ trace (download_video cfg env req fs) = [])
  /\ (authorization req = Some ("Bearer " ++ API_SECRET cfg) ->
      download_video cfg env req fs
      = run_view (validate_and_process cfg env req) fs
      /\ forall resp,
          outcome (download_video cfg env req fs) = Responded resp ->
          status resp <> 401).
Proof.
  intros Hsecret.
  assert (Hrun : forall b : bool,
             String.eqb (match authorization req with
                         | Some h => h
                         | None => EmptyString
                         end) ("Bearer " ++ API_SECRET cfg) = b ->
             download_video cfg env req fs
             = if b then run_view (validate_and_process cfg env req) fs
               else {| outcome := Responded {| body := [("error", PyStr "Unauthorized")];
                                               status := 401 |};
                       final_fs := fs; trace := [] |}).
  { intros b Hb.
    unfold download_video, download_video_view, check_auth, bind, run_view.
    rewrite (py_truthy_str _ Hsecret), Hb.
    destruct b; reflexivity. }
  split.
  - intros Hne. rewrite (Hrun false); [now split|].
    destruct (authorization req) as [h|]; [|reflexivity].
    apply String.eqb_neq. congruence.
  - intros Heq. rewrite (Hrun true).
    + split; [reflexivity|]. intros resp Hresp.
      apply validate_and_process_status in Hresp. lia.
    + rewrite Heq. apply String.eqb_refl.
Qed.

Lemma C4_bearer_auth_witness :
  outcome (download_video (Sample.cfg "s3cret")
             (Sample.env TimeoutExpired [] None [])
             (Sample.request None (PyDict [("url", PyStr Sample.watch_url)]))
             Sample.empty_fs)
  = Responded {| body := [("error", PyStr "Unauthorized")]; status := 401 |}
  /\ (forall resp,
         outcome (download_video (Sample.cfg "s3cret")
                    (Sample.env TimeoutExpired [] None [])
                    (Sample.request (Some "Bearer s3cret")
                       (PyDict [("url", PyStr Sample.watch_url)]))
                    Sample.empty_fs)
         = Responded resp ->
         status resp <> 401).
Proof.
  split.
  - apply (C4_bearer_auth (Sample.cfg "s3cret")
             (Sample.env TimeoutExpired [] None [])
             (Sample.request None (PyDict [("url", PyStr Sample.watch_url)]))
             Sample.empty_fs); discriminate.
  - apply (C4_bearer_auth (Sample.cfg "s3cret")
             (Sample.env TimeoutExpired [] None [])
             (Sample.request (Some "Bearer s3cret")
                (PyDict [("url", PyStr Sample.watch_url)]))
             Sample.empty_fs); [discriminate | reflexivity].
Defined.

(** ** The download step *)

(** C6: when the downloader subprocess runs into the 600-second timeout,
    the response is 504 and the storage client is never called. *)
Theorem C6_timeout_is_504_without_upload cfg env req fs cmd t :
  In (EvRun cmd t TimeoutExpired) (trace (download_video cfg env req fs)) ->
  t = 600
  /\ outcome (download_video cfg env req fs)
     = Responded {| body := [("error", PyStr "Download timed out (10 min limit)")];
                    status := 504 |}
  /\ upload_calls (trace (download_video cfg env req fs)) = [].
Proof.
  run_cases; in_trace; auto.
Qed.

Lemma C6_timeout_is_504_without_upload_witness :
  outcome (download_video (Sample.cfg EmptyString)
             (Sample.env TimeoutExpired [("abc.mp4.part", 4096)] None [])
             (Sample.request None (PyDict [("url", PyStr Sample.watch_url)]))
             Sample.empty_fs)
  = Responded {| body := [("error", PyStr "Download timed out (10 min limit)")];
                 status := 504 |}
  /\ upload_calls
       (trace (download_video (Sample.cfg EmptyString)
                 (Sample.env TimeoutExpired [("abc.mp4.part", 4096)] None [])
                 (Sample.request None (PyDict [("url", PyStr Sample.watch_url)]))
                 Sample.empty_fs)) = [].
Proof.
  refine (proj2 (C6_timeout_is_504_without_upload _ _ _ _ _ 600 _)).
  vm_compute. right. left. reflexivity.
Defined.

(** C7: when the downloader exits with a non-zero code, the response is
    500, its error text is "Download failed: " followed by the first 500
    characters of the subprocess's stderr (at most 500 characters, a prefix
    of it), and the storage client is never called. *)
Theorem C7_nonzero_exit_is_500_without_upload cfg env req fs cmd t rc out err :
  In (EvRun cmd t (CompletedProcess rc out err))
     (trace (download_video cfg env req fs)) ->
  rc <> 0 ->
  outcome (download_video cfg env req fs)
  = Responded {| body := [("error", PyStr ("Download failed: " ++ py_take 500 err))];
                 status := 500 |}
  /\ (String.length (py_take 500 err) <= 500)%nat
  /\ String.prefix (py_take 500 err) err = true
  /\ upload_calls (trace (download_video cfg env req fs)) = [].
Proof.
  intros Hin Hrc.
  assert (outcome (download_video cfg env req fs)
          = Responded {| body := [("error",
                                   PyStr ("Download failed: " ++ py_take 500 err))];
                         status := 500 |}
          /\ upload_calls (trace (download_video cfg env req fs)) = []) as [Ho Hu].
  { revert Hin. run_cases; in_trace; auto;
      match goal with
      | H : negb (?rc =? 0) = false |- _ =>
          apply negb_false_iff, Z.eqb_eq in H; congruence
      end. }
  auto using py_take_length, py_take_prefix.
Qed.

Lemma C7_nonzero_exit_is_500_without_upload_witness :
  outcome (download_video (Sample.cfg EmptyString)
             (Sample.env (CompletedProcess 1 EmptyString "ERROR: Video unavailable")
                [] None [])
             (Sample.request None (PyDict [("url", PyStr Sample.watch_url)]))
             Sample.empty_fs)
  = Responded {| body := [("error",
                           PyStr "Download failed: ERROR: Video unavailable")];
                 status := 500 |}.
Proof.
  refine (proj1 (C7_nonzero_exit_is_500_without_upload _ _ _ _ _ 600 1
                   EmptyString "ERROR: Video unavailable" _ _)).
  - vm_compute. right. left. reflexivity.
  - discriminate.
Defined.

(** ** The temporary directory *)

Lemma fs_rmtree_dir (d : string) (fs : FS) : listing (fs_rmtree d fs) d = None.
Proof. cbn. now rewrite String.eqb_refl. Qed.

Lemma fs_rmtree_under (d p : string) (fs : FS) :
  under d p = true ->
  listing (fs_rmtree d fs) p = None /\ size (fs_rmtree d fs) p = None.
Proof. intros H. cbn. rewrite H, orb_true_r. now split. Qed.

(** X23: once the view has created its temporary directory, the run ends
    by cleaning it up, whatever the outcome (a success, an error response
    or an exception): the last outside call is the cleanup, and afterwards
    the directory is gone and no path that begins with the directory's
    name followed by "/" has a listing or a size.  (Nothing is said of
    files written elsewhere.) *)
Theorem X23_tmpdir_removed_on_every_exit cfg env req fs d :
  In (EvMkdtemp d) (trace (download_video cfg env req fs)) ->
  last (trace (download_video cfg env req fs)) (EvMkdtemp d) = EvCleanup d
  /\ listing (final_fs (download_video cfg env req fs)) d = None
  /\ forall p, under d p = true ->
       listing (final_fs (download_video cfg env req fs)) p = None
       /\ size (final_fs (download_video cfg env req fs)) p = None.
Proof.
  run_cases; in_trace;
    (split; [reflexivity | split; [apply fs_rmtree_dir|]]);
    intros ? ?; now apply fs_rmtree_under.
Qed.

Lemma X23_tmpdir_removed_on_every_exit_witness :
  (* an error response *)
  listing (final_fs (download_video (Sample.cfg EmptyString)
                       (Sample.env TimeoutExpired [("abc.mp4.part", 4096)] None [])
                       (Sample.request None (PyDict [("url", PyStr Sample.watch_url)]))
                       Sample.empty_fs)) Sample.tmp = None
  (* an exception *)
  /\ size (final_fs (download_video (Sample.cfg EmptyString)
                       (Sample.env (RunError FileNotFoundError) [("abc.mp4", 7)] None [])
                       (Sample.request None (PyDict [("url", PyStr Sample.watch_url)]))
                       Sample.empty_fs)) "/tmp/tmpk3v9x_2a/abc.mp4" = None
  (* a success *)
  /\ size (final_fs (download_video (Sample.cfg EmptyString)
                       (Sample.env (CompletedProcess 0 EmptyString EmptyString)
                          [("abc.mp4", 7)] None [])
                       (Sample.request None (PyDict [("url", PyStr Sample.watch_url)]))
                       Sample.empty_fs)) "/tmp/tmpk3v9x_2a/abc.mp4" = None.
Proof.
  split; [|split].
  - refine (proj1 (proj2 (X23_tmpdir_removed_on_every_exit _ _ _ _ Sample.tmp _))).
    vm_compute. left. reflexivity.
  - refine (proj2 (proj2 (proj2 (X23_tmpdir_removed_on_every_exit _ _ _ _ Sample.tmp _))
                     "/tmp/tmpk3v9x_2a/abc.mp4" _)).
    + vm_compute. left. reflexivity.
    + reflexivity.
  - refine (proj2 (proj2 (proj2 (X23_tmpdir_removed_on_every_exit _ _ _ _ Sample.tmp _))
                     "/tmp/tmpk3v9x_2a/abc.mp4" _)).
    + vm_compute. left. reflexivity.
    + reflexivity.
Defined.

(** ** The duration *)



(** When the duration entry of the record is an integer, it is the
    recovered duration. *)
Lemma recovered_duration_int env stdout line metadata k seconds :
  recovered_duration env stdout seconds ->
  last_line stdout = inr line ->
  json_loads env line = inr (PyDict metadata) ->
  dict_get metadata "duration" = Some (PyInt k) ->
  seconds = k.
Proof.
  intros (line' & Hl' & H) Hl Hj Hd.
  rewrite Hl in Hl'. inversion Hl'; subst line'.
  rewrite Hj, Hd in H. cbn in H. congruence.
Qed.

(** ** The working identifier *)

Lemma resolve_video_id_present env d v :
  dict_get d "videoId" = Some v -> resolve_video_id env (PyDict d) = inr v.
Proof. intros H. unfold resolve_video_id, py_get. now rewrite H. Qed.





(** ** Where the duration is not recovered *)

(** A last line that does not decode is not fatal: the duration is 0. *)
Lemma parse_duration_decode_error env stdout line w :
  last_line stdout = inr line ->
  json_loads env line = inl JSONDecodeError ->
  parse_duration env stdout w = (Val (PyInt 0), w).
Proof.
  intros Hl Hj. unfold parse_duration, metadata_duration.
  rewrite Hl. cbn [ebind]. rewrite Hj. reflexivity.
Qed.

(** A last line that decodes to something other than a record raises
    [AttributeError], which the handler of line 153 does not catch. *)
Lemma parse_duration_not_a_record env stdout line metadata w :
  last_line stdout = inr line ->
  json_loads env line = inr metadata ->
  (forall d, metadata <> PyDict d) ->
  parse_duration env stdout w = (Raise AttributeError, w).
Proof.
  intros Hl Hj Hnd. unfold parse_duration, metadata_duration.
  rewrite Hl. cbn [ebind]. rewrite Hj. cbn [ebind].
  destruct metadata; try reflexivity. now elim (Hnd d).
Qed.

(** C2 fails on the code: the downloader exits with code 0, leaves
    abc.mp4 and prints a record whose duration is null.  No duration is
    recovered ([duration] is [None]); the file is uploaded, and then
    [int(duration)] raises [TypeError], which leaves the view: the request
    ends in an error instead of answering with duration 0. *)
Theorem C2_null_duration_is_fatal :
  metadata_duration Sample.null_duration_env
    (Sample.record "null" ++ String newline EmptyString) = inr PyNone
  /\ outcome (download_video Sample.open_cfg Sample.null_duration_env
                (Sample.video_request "abc") Sample.empty_fs)
     = Raised TypeError
  /\ List.length
       (upload_calls
          (trace (download_video Sample.open_cfg Sample.null_duration_env
                    (Sample.video_request "abc") Sample.empty_fs))) = 1%nat.
Proof. repeat split; vm_compute; reflexivity. Qed.

(** The same request when the last line decodes to a list: the view ends
    with [AttributeError] before it looks for the file. *)
Lemma no_record_output_is_fatal :
  outcome (download_video Sample.open_cfg Sample.no_record_file_env
             (Sample.video_request "abc") Sample.empty_fs)
  = Raised AttributeError.
Proof. vm_compute. reflexivity. Qed.

(** ** Validation of the request body *)

(** A body that is falsy, or a record without a truthy "url", is answered
    400 with an error field, before any outside call. *)
Lemma missing_url_is_400 cfg env req fs data :
  get_json req = inr data ->
  py_truthy data = false
  \/ (exists d, data = PyDict d
                /\ match dict_get d "url" with
                   | Some u => py_truthy u = false
                   | None => True
                   end) ->
  run_view (validate_and_process cfg env req) fs
  = {| outcome := Responded {| body := [("error", PyStr "url is required")];
                               status := 400 |};
       final_fs := fs;
       trace := [] |}.
Proof.
  intros Hdata Hbad.
  unfold run_view, validate_and_process, bind, lift.
  rewrite Hdata. cbn [ret].
  destruct Hbad as [Hfalsy | (d & -> & Hurl)].
  - rewrite Hfalsy. reflexivity.
  - destruct (py_truthy (PyDict d)); [|reflexivity].
    cbn [negb py_get].
    destruct (dict_get d "url") as [u|]; cbn [ret]; [rewrite Hurl|]; reflexivity.
Qed.

(** C5 fails on the code: a JSON body that is a non-empty list has no
    url, yet the view does not answer 400: [data.get] raises
    [AttributeError], whatever the environment. *)
Theorem C5_non_object_body_raises env fs :
  outcome (download_video Sample.open_cfg env
             (Sample.request None (PyList [PyInt 1])) fs)
  = Raised AttributeError
  /\ trace (download_video Sample.open_cfg env
              (Sample.request None (PyList [PyInt 1])) fs) = [].
Proof. split; reflexivity. Qed.

(** ** Locating the downloaded file *)

(** Once the view has listed the temporary directory and found no name
    with a video extension, the answer is 500 with an error field and the
    storage client is never called. *)
Lemma no_video_file_is_500 cfg env req fs d names :
  In (EvListdir d names) (trace (download_video cfg env req fs)) ->
  filter (fun f => py_endswith_any f video_extensions) names = [] ->
  outcome (download_video cfg env req fs)
  = Responded {| body := [("error", PyStr "No video file found after download")];
                 status := 500 |}
  /\ upload_calls (trace (download_video cfg env req fs)) = [].
Proof.
  run_cases; in_trace; auto; congruence.
Qed.

(** C8 fails on the code: the downloader exits with code 0, leaves no
    file, and the last line of its output decodes to a list.  The view
    ends with [AttributeError] at line 152, before it lists the directory:
    the response is not the 500 with an error field. *)
Theorem C8_no_record_then_no_listing :
  outcome (download_video Sample.open_cfg Sample.no_record_env
             (Sample.video_request "abc") Sample.empty_fs)
  = Raised AttributeError
  /\ exists cmd,
      trace (download_video Sample.open_cfg Sample.no_record_env
               (Sample.video_request "abc") Sample.empty_fs)
      = [ EvMkdtemp Sample.tmp;
          EvRun cmd 600 (CompletedProcess 0 "[]" EmptyString);
          EvCleanup Sample.tmp ].
Proof. split; [|eexists]; vm_compute; reflexivity. Qed.

(** ** The config loader *)

Lemma dict_get_set (d : list (string * pyobj)) (k k' : string) (v : pyobj) :
  dict_get (dict_set d k v) k'
  = if String.eqb k k' then Some v else dict_get d k'.
Proof.
  induction d as [|[k0 v0] d IH]; cbn [dict_set dict_get].
  - reflexivity.
  - destruct (String.eqb_spec k0 k) as [->|Hne]; cbn [dict_get].
    + destruct (String.eqb k k'); reflexivity.
    + rewrite IH. destruct (String.eqb_spec k0 k') as [->|Hne']; [|reflexivity].
      destruct (String.eqb_spec k k'); congruence.
Qed.

Lemma dict_set_same (d : list (string * pyobj)) (k : string) (v : pyobj) :
  dict_get d k = Some v -> dict_set d k v = d.
Proof.
  induction d as [|[k0 v0] d IH]; cbn [dict_set dict_get]; [discriminate|].
  destruct (String.eqb k0 k); intros H.
  - congruence.
  - now rewrite IH.
Qed.

(** X1: the loader assigns a value for a key exactly when the service
    answers the request for that key with an OK response whose JSON is an
    object with a truthy "value" entry; that entry is the value assigned. *)
Theorem X1_fetch_assigns_iff requests_get base config_key v :
  assigned (fetch_value requests_get base config_key) = Some v
  <-> exists d,
        requests_get (config_url base config_key) 5
        = HttpResponse true (inr (PyDict d))
        /\ dict_get d "value" = Some v
        /\ py_truthy v = true.
Proof.
  unfold fetch_value, assigned. split.
  - destruct (requests_get (config_url base config_key) 5) as [e|ok json];
      [discriminate|].
    destruct ok; [|discriminate].
    destruct json as [e|data]; cbn [ebind]; [discriminate|].
    destruct data; cbn [py_get ebind]; try discriminate.
    destruct (dict_get d "value") as [u|] eqn:Hu; cbn [ebind py_truthy];
      [|discriminate].
    destruct (py_truthy u) eqn:Ht; [|discriminate].
    cbn [py_getitem]. rewrite Hu. cbn [ebind]. intros H. inversion H; subst.
    now exists d.
  - intros (d & -> & Hv & Ht). cbn [ebind py_get]. rewrite Hv. cbn [ebind].
    rewrite Ht. cbn [py_getitem]. rewrite Hv. reflexivity.
Qed.

Lemma load_one_get requests_get base g log config_key var_name name :
  dict_get (fst (load_one requests_get base (g, log) (config_key, var_name))) name
  = if String.eqb var_name name then
      match assigned (fetch_value requests_get base config_key) with
      | Some v => Some v
      | None => dict_get g name
      end
    else dict_get g name.
Proof.
  unfold load_one.
  destruct (fetch_value requests_get base config_key) as [e|[v|]];
    cbn [fst assigned]; try rewrite dict_get_set;
    destruct (String.eqb var_name name); reflexivity.
Qed.

Lemma load_one_pair requests_get base st kv :
  load_one requests_get base st kv
  = (fst (load_one requests_get base st kv),
     snd (load_one requests_get base st kv)).
Proof. now destruct (load_one requests_get base st kv). Qed.

Lemma load_one_gets requests_get base g log config_key var_name :
  filter is_http_get
    (snd (load_one requests_get base (g, log) (config_key, var_name)))
  = (filter is_http_get log ++ [HttpGet (config_url base config_key) 5])%list.
Proof.
  unfold load_one.
  destruct (fetch_value requests_get base config_key) as [e|[v|]];
    cbn [snd]; rewrite ?filter_app; cbn [filter is_http_get];
    rewrite ?app_nil_r; reflexivity.
Qed.

(** The globals and the log after the four turns of the loop. *)
Ltac loader_turns requests_get base :=
  unfold load_config_from_service;
  match goal with
  | H : base <> EmptyString |- _ => rewrite (py_truthy_str base H)
  end;
  cbn [negb fold_left config_keys];
  repeat match goal with
         | |- context [load_one requests_get base (load_one ?r ?b ?st ?kv) ?kv'] =>
             rewrite (load_one_pair r b st kv)
         end.

Lemma loader_get_key requests_get base g config_key var_name :
  base <> EmptyString ->
  In (config_key, var_name) config_keys ->
  dict_get (fst (load_config_from_service requests_get base g)) var_name
  = match assigned (fetch_value requests_get base config_key) with
    | Some v => Some v
    | None => dict_get g var_name
    end.
Proof.
  intros Hbase Hin. loader_turns requests_get base.
  rewrite !load_one_get. cbn [In config_keys] in Hin.
  repeat destruct Hin as [Hin|Hin]; try contradiction;
    inversion Hin; subst; cbn [String.eqb Ascii.eqb Bool.eqb];
    repeat match goal with
           | |- context [assigned ?r] => destruct (assigned r)
           end; reflexivity.
Qed.

Lemma loader_frame requests_get base g name :
  ~ In name (map snd config_keys) ->
  dict_get (fst (load_config_from_service requests_get base g)) name
  = dict_get g name.
Proof.
  intros Hnot. destruct base as [|c b]; [reflexivity|].
  assert (Hbase : String c b <> EmptyString) by discriminate.
  loader_turns requests_get (String c b).
  rewrite !load_one_get. cbn [map snd config_keys In] in Hnot.
  repeat match goal with
         | |- context [String.eqb ?a name] =>
             destruct (String.eqb_spec a name); [exfalso; tauto|]
         end.
  reflexivity.
Qed.

(** X2: with a config service URL set, each of the four loadable settings
    ends as the value the service gave for its key (the key
    YT_DLP_API_SECRET for API_SECRET) when one was assigned, and keeps its
    previous value otherwise, whatever happens to the other keys; every
    other global, MINIO_BUCKET among them, is left as it was. *)
Theorem X2_loader_result requests_get base g :
  base <> EmptyString ->
  (forall config_key var_name,
      In (config_key, var_name) config_keys ->
      dict_get (fst (load_config_from_service requests_get base g)) var_name
      = match assigned (fetch_value requests_get base config_key) with
        | Some v => Some v
        | None => dict_get g var_name
        end)
  /\ (forall name,
         ~ In name (map snd config_keys) ->
         dict_get (fst (load_config_from_service requests_get base g)) name
         = dict_get g name).
Proof.
  intros Hbase. split.
  - intros config_key var_name. now apply loader_get_key.
  - intros name. apply loader_frame.
Qed.

Lemma X2_loader_result_witness :
  dict_get (fst (load_config_from_service StartupSample.service
                   "http://config:8080"
                   (module_globals StartupSample.environ))) "API_SECRET"
  = Some (PyStr "s3cret")
  /\ dict_get (fst (load_config_from_service StartupSample.service
                      "http://config:8080"
                      (module_globals StartupSample.environ))) "MINIO_SECRET_KEY"
     = Some (PyStr "minioadmin").
Proof.
  split.
  - exact (proj1 (X2_loader_result StartupSample.service "http://config:8080"
                    (module_globals StartupSample.environ)
                    ltac:(discriminate))
             "YT_DLP_API_SECRET" "API_SECRET"
             ltac:(cbn; tauto)).
  - exact (proj1 (X2_loader_result StartupSample.service "http://config:8080"
                    (module_globals StartupSample.environ)
                    ltac:(discriminate))
             "MINIO_SECRET_KEY" "MINIO_SECRET_KEY"
             ltac:(cbn; tauto)).
Defined.

Lemma X1_fetch_assigns_iff_witness :
  assigned (fetch_value StartupSample.service "http://config:8080"
              "MINIO_ENDPOINT")
  = Some (PyStr "https://minio.internal/").
Proof.
  apply (proj2 (X1_fetch_assigns_iff StartupSample.service "http://config:8080"
                  "MINIO_ENDPOINT" (PyStr "https://minio.internal/"))).
  exists [("value", PyStr "https://minio.internal/")].
  repeat split; reflexivity.
Defined.

(** X3: with a config service URL set, the loader makes exactly four GET
    requests, one per key in the order of the [keys] dict, each to
    "{base}/api/v1/config/{key}" with a timeout of 5 seconds, whatever the
    answers are: a failure neither stops the loop nor is retried.  Without
    a URL it makes none and changes nothing. *)
Theorem X3_loader_requests requests_get base g :
  (base <> EmptyString ->
   filter is_http_get (snd (load_config_from_service requests_get base g))
   = [ HttpGet (base ++ "/api/v1/config/MINIO_ENDPOINT") 5;
       HttpGet (base ++ "/api/v1/config/MINIO_ACCESS_KEY") 5;
       HttpGet (base ++ "/api/v1/config/MINIO_SECRET_KEY") 5;
       HttpGet (base ++ "/api/v1/config/YT_DLP_API_SECRET") 5 ])
  /\ (base = EmptyString ->
      load_config_from_service requests_get base g = (g, [])).
Proof.
  split.
  - intros Hbase. loader_turns requests_get base.
    rewrite !load_one_gets. reflexivity.
  - intros ->. reflexivity.
Qed.

Lemma X3_loader_requests_witness :
  List.length
    (filter is_http_get
       (snd (load_config_from_service StartupSample.service "http://config:8080"
               (module_globals StartupSample.environ)))) = 4%nat
  /\ load_config_from_service StartupSample.service EmptyString
       (module_globals StartupSample.environ)
     = (module_globals StartupSample.environ, []).
Proof.
  split.
  - rewrite (proj1 (X3_loader_requests StartupSample.service "http://config:8080"
                      (module_globals StartupSample.environ))
               ltac:(discriminate)).
    reflexivity.
  - apply (proj2 (X3_loader_requests StartupSample.service EmptyString
                    (module_globals StartupSample.environ))).
    reflexivity.
Defined.

Lemma load_one_log requests_get base g log config_key var_name ev :
  In ev (snd (load_one requests_get base (g, log) (config_key, var_name)))
  <-> In ev log
      \/ ev = HttpGet (config_url base config_key) 5
      \/ (ev = LogLoaded config_key
          /\ assigned (fetch_value requests_get base config_key) <> None)
      \/ (exists e, ev = LogFailed config_key e
                    /\ fetch_value requests_get base config_key = inl e).
Proof.
  unfold load_one.
  destruct (fetch_value requests_get base config_key) as [e|[v|]];
    cbn [snd assigned]; rewrite ?in_app_iff; cbn [In]; split; intros H;
    repeat match goal with
           | H : _ \/ _ |- _ => destruct H
           | H : _ /\ _ |- _ => destruct H
           | H : exists _, _ |- _ => destruct H
           | H : False |- _ => destruct H
           | H : inl _ = inl _ |- _ => inversion H; clear H
           end; subst; try discriminate; try congruence; auto;
    try (right; right; left; split; [reflexivity | discriminate]);
    eauto 8.
Qed.

(** Solves a goal built from disjunctions, conjunctions and existentials
    over hypotheses and reflexive equations. *)
Ltac pick_disjunct :=
  first [ assumption | reflexivity
        | (split; pick_disjunct) | (eexists; pick_disjunct)
        | (left; pick_disjunct) | (right; pick_disjunct) ].

(** X4: with a config service URL set, the loader logs a warning for a
    key exactly when fetching it raised (the request, the JSON decoding or
    the lookup of "value"), and logs a success exactly when it assigned the
    value; a response that is not OK or has no truthy value is skipped
    without a log line. *)
Theorem X4_loader_log requests_get base g config_key :
  base <> EmptyString ->
  (In (LogLoaded config_key)
      (snd (load_config_from_service requests_get base g))
   <-> In config_key (map fst config_keys)
       /\ assigned (fetch_value requests_get base config_key) <> None)
  /\ (forall e,
         In (LogFailed config_key e)
            (snd (load_config_from_service requests_get base g))
         <-> In config_key (map fst config_keys)
             /\ fetch_value requests_get base config_key = inl e).
Proof.
  intros Hbase. loader_turns requests_get base.
  cbn [map fst config_keys In]. split; [|intros e];
    rewrite !load_one_log; cbn [In]; (split; [intros H | intros [H Ha]]);
    repeat match goal with
           | H : _ \/ _ |- _ => destruct H
           | H : _ /\ _ |- _ => destruct H
           | H : exists _, _ |- _ => destruct H
           | H : False |- _ => destruct H
           | H : @eq LoaderEvent _ _ |- _ =>
               first [discriminate H | inversion H; clear H]
           end; subst; pick_disjunct.
Qed.

Lemma X4_loader_log_witness :
  In (LogFailed "MINIO_SECRET_KEY" (OtherError "connection refused"))
     (snd (load_config_from_service StartupSample.service "http://config:8080"
             (module_globals StartupSample.environ)))
  /\ ~ In (LogLoaded "MINIO_ACCESS_KEY")
         (snd (load_config_from_service StartupSample.service
                 "http://config:8080"
                 (module_globals StartupSample.environ))).
Proof.
  split.
  - apply (proj2 (X4_loader_log StartupSample.service "http://config:8080"
                    (module_globals StartupSample.environ) "MINIO_SECRET_KEY"
                    ltac:(discriminate))).
    split; [cbn; tauto | reflexivity].
  - intros H.
    apply (proj1 (X4_loader_log StartupSample.service "http://config:8080"
                    (module_globals StartupSample.environ) "MINIO_ACCESS_KEY"
                    ltac:(discriminate))) in H.
    destruct H as [_ H]. apply H. reflexivity.
Defined.

Lemma load_one_fixed requests_get base g log config_key var_name :
  (forall v, assigned (fetch_value requests_get base config_key) = Some v ->
             dict_get g var_name = Some v) ->
  fst (load_one requests_get base (g, log) (config_key, var_name)) = g.
Proof.
  intros H. unfold load_one.
  destruct (fetch_value requests_get base config_key) as [e|[v|]];
    cbn [fst]; try reflexivity.
  apply dict_set_same, H. reflexivity.
Qed.

(** Globals that already hold every value the service assigns are left
    as they are. *)
Lemma loader_fixed_point requests_get base g :
  (forall config_key var_name v,
      In (config_key, var_name) config_keys ->
      assigned (fetch_value requests_get base config_key) = Some v ->
      dict_get g var_name = Some v) ->
  fst (load_config_from_service requests_get base g) = g.
Proof.
  intros H. destruct base as [|c b]; [reflexivity|].
  assert (Hbase : String c b <> EmptyString) by discriminate.
  loader_turns requests_get (String c b).
  repeat (rewrite (load_one_fixed requests_get (String c b) g);
          [|intros v Hv; eapply H; [|exact Hv]; cbn; tauto]).
  reflexivity.
Qed.

(** X5: loading is idempotent: running the loader again on the globals it
    left, against the same service, changes nothing. *)
Theorem X5_loader_idempotent requests_get base g :
  fst (load_config_from_service requests_get base
         (fst (load_config_from_service requests_get base g)))
  = fst (load_config_from_service requests_get base g).
Proof.
  destruct base as [|c b]; [reflexivity|].
  apply loader_fixed_point. intros config_key var_name v Hin Hv.
  assert (Hbase : String c b <> EmptyString) by discriminate.
  rewrite (loader_get_key requests_get _ g _ _ Hbase Hin), Hv. reflexivity.
Qed.

(** X6: when no request to the config service succeeds in assigning a
    value (the service is unreachable, say, so that every request raises),
    the loader returns the globals exactly as the environment set them. *)
Theorem X6_unreachable_service_keeps_environment requests_get environ :
  (forall url, exists e, requests_get url 5 = RequestRaised e) ->
  fst (module_startup requests_get environ) = module_globals environ.
Proof.
  intros Hdown. apply loader_fixed_point.
  intros config_key var_name v _ Hv. unfold assigned, fetch_value in Hv.
  destruct (Hdown (config_url (config_service_url environ) config_key))
    as [e He].
  rewrite He in Hv. discriminate.
Qed.

Lemma X6_unreachable_service_keeps_environment_witness :
  fst (module_startup (fun _ _ => RequestRaised (OtherError "timed out"))
         StartupSample.environ)
  = module_globals StartupSample.environ.
Proof.
  apply X6_unreachable_service_keeps_environment.
  intros url. now exists (OtherError "timed out").
Defined.

(** X7: the bucket is not among the keys asked of the config service: after
    the module start-up MINIO_BUCKET is the value of the environment
    variable, "source" when the variable is not set, whatever the service
    answers. *)
Theorem X7_bucket_comes_from_environment requests_get environ :
  dict_get (fst (module_startup requests_get environ)) "MINIO_BUCKET"
  = Some (PyStr (environ_get environ "MINIO_BUCKET" "source"))
  /\ (find (fun kv => String.eqb (fst kv) "MINIO_BUCKET") environ = None ->
      dict_get (fst (module_startup requests_get environ)) "MINIO_BUCKET"
      = Some (PyStr "source")).
Proof.
  assert (H : dict_get (fst (module_startup requests_get environ)) "MINIO_BUCKET"
              = Some (PyStr (environ_get environ "MINIO_BUCKET" "source"))).
  { unfold module_startup. rewrite loader_frame; [reflexivity|].
    cbn. intros H. repeat destruct H as [H|H]; try discriminate. exact H. }
  split; [exact H|]. intros Hnone. rewrite H. unfold environ_get.
  now rewrite Hnone.
Qed.

Lemma X7_bucket_comes_from_environment_witness :
  dict_get (fst (module_startup StartupSample.service StartupSample.environ))
           "MINIO_BUCKET"
  = Some (PyStr "source").
Proof.
  apply (proj2 (X7_bucket_comes_from_environment StartupSample.service
                  StartupSample.environ)).
  reflexivity.
Defined.

(** ** More on the view *)

Lemma all_str_command (output_path : string) (url : pyobj) (l : list string) :
  all_str (yt_dlp_cmd output_path url) = inr l ->
  exists u, url = PyStr u /\ l = command_line output_path u.
Proof.
  unfold yt_dlp_cmd. cbn [all_str ebind].
  destruct url; cbn [all_str ebind]; try discriminate.
  intros H. inversion H. now exists s.
Qed.

Lemma all_str_error (output_path : string) (url : pyobj) (e : pyexc) :
  all_str (yt_dlp_cmd output_path url) = inl e -> e = TypeError.
Proof.
  unfold yt_dlp_cmd. cbn [all_str ebind].
  destruct url; cbn [all_str ebind]; intros H; inversion H; reflexivity.
Qed.

(** What the validation of lines 101-105 has established when it lets a
    request through. *)
Lemma validated_url (data a b : pyobj) :
  py_get data "url" PyNone = inr a ->
  negb (py_truthy a) = false ->
  py_getitem data "url" = inr b ->
  exists d, data = PyDict d /\ dict_get d "url" = Some b /\ py_truthy b = true.
Proof.
  destruct data; cbn [py_get py_getitem]; try discriminate.
  destruct (dict_get d "url") as [v|] eqn:E; [|discriminate].
  intros Ha Ht Hb. inversion Ha; inversion Hb; subst.
  apply negb_false_iff in Ht. exists d. auto.
Qed.

Lemma py_int_errors (env : Env) (o : pyobj) (e : pyexc) :
  py_int env o = inl e -> e = TypeError \/ e = ValueError \/ e = OverflowError.
Proof.
  destruct o; cbn [py_int]; try (intros H; inversion H; auto; fail).
  - destruct f; cbn; intros H; inversion H; auto.
  - destruct (int_of_str env s); intros H; inversion H; auto.
Qed.

(** X8: every answer of the view has one of two shapes: status 200 with
    exactly the fields sourceUrl (a string), duration and fileSize
    (integers), or a status among 400, 401, 500, 504 with exactly one
    field, "error", holding a string. *)
Theorem X8_response_shapes cfg env req fs resp :
  outcome (download_video cfg env req fs) = Responded resp ->
  (status resp = 200
   /\ exists src seconds n,
       body resp = [ ("sourceUrl", PyStr src); ("duration", PyInt seconds);
                     ("fileSize", PyInt n) ])
  \/ (exists msg,
         body resp = [("error", PyStr msg)]
         /\ (status resp = 400 \/ status resp = 401
             \/ status resp = 500 \/ status resp = 504)).
Proof.
  run_cases; intros H; inversion H; subst resp; cbn [status body];
    first [ left; split; [reflexivity | do 3 eexists; reflexivity]
          | right; eexists; split; [reflexivity | auto 6] ].
Qed.

Lemma X8_response_shapes_witness :
  (status (Sample.good_response "abc") = 200
   /\ exists src seconds n,
       body (Sample.good_response "abc")
       = [ ("sourceUrl", PyStr src); ("duration", PyInt seconds);
           ("fileSize", PyInt n) ])
  \/ (exists msg,
         body (Sample.good_response "abc") = [("error", PyStr msg)]
         /\ (status (Sample.good_response "abc") = 400
             \/ status (Sample.good_response "abc") = 401
             \/ status (Sample.good_response "abc") = 500
             \/ status (Sample.good_response "abc") = 504)).
Proof.
  apply (X8_response_shapes Sample.open_cfg Sample.good_env
           (Sample.video_request "abc") Sample.empty_fs).
  vm_compute. reflexivity.
Defined.

(** X9: a request answered 400 or 401 has caused nothing: no temporary
    directory, no subprocess, no storage call, and the file system is as
    it was. *)
Theorem X9_rejected_request_touches_nothing cfg env req fs resp :
  outcome (download_video cfg env req fs) = Responded resp ->
  status resp = 400 \/ status resp = 401 ->
  trace (download_video cfg env req fs) = []
  /\ final_fs (download_video cfg env req fs) = fs.
Proof.
  run_cases; intros H Hs; inversion H; subst resp; cbn [status] in Hs;
    first [ split; reflexivity | exfalso; lia ].
Qed.

Lemma X9_rejected_request_touches_nothing_witness :
  trace (download_video (Sample.cfg "s3cret") Sample.good_env
           (Sample.video_request "abc") Sample.empty_fs) = []
  /\ final_fs (download_video (Sample.cfg "s3cret") Sample.good_env
                 (Sample.video_request "abc") Sample.empty_fs)
     = Sample.empty_fs.
Proof.
  apply (X9_rejected_request_touches_nothing (Sample.cfg "s3cret")
           Sample.good_env (Sample.video_request "abc") Sample.empty_fs
           {| body := [("error", PyStr "Unauthorized")]; status := 401 |}).
  - vm_compute. reflexivity.
  - right. reflexivity.
Defined.

(** X10: nothing is retried: a request runs the downloader at most once
    and calls the storage upload at most once, and an upload call is only
    made after a downloader run that exited with code 0. *)
Theorem X10_single_attempt cfg env req fs :
  (List.length (filter is_run (trace (download_video cfg env req fs))) <= 1)%nat
  /\ (List.length (upload_calls (trace (download_video cfg env req fs))) <= 1)%nat
  /\ forall c f b k ct e,
      In (EvUpload c f b k ct e) (trace (download_video cfg env req fs)) ->
      exists cmd out err,
        In (EvRun cmd 600 (CompletedProcess 0 out err))
           (trace (download_video cfg env req fs)).
Proof.
  run_cases; cbn [filter is_run upload_calls is_upload List.length];
    (split; [lia | split; [lia|]]); in_trace;
    match goal with
    | H : negb (?rc =? 0) = false |- _ =>
        apply negb_false_iff, Z.eqb_eq in H; subst rc
    end;
    do 3 eexists; cbn [In]; right; left; reflexivity.
Qed.

Lemma X10_single_attempt_witness :
  exists cmd out err,
    In (EvRun cmd 600 (CompletedProcess 0 out err))
       (trace (download_video Sample.open_cfg Sample.good_env
                 (Sample.video_request "abc") Sample.empty_fs)).
Proof.
  refine (proj2 (proj2 (X10_single_attempt Sample.open_cfg Sample.good_env
                         (Sample.video_request "abc") Sample.empty_fs))
            (get_s3_client Sample.open_cfg) "/tmp/tmpk3v9x_2a/abc.mp4"
            "source" "youtube/abc.mp4" "video/mp4" None _).
  vm_compute. do 4 right. left. reflexivity.
Defined.

(** X11: when the upload call raises, the answer is 500 with the error
    text "Upload to storage failed: " followed by the text of the
    exception. *)
Theorem X11_upload_failure_is_500 cfg env req fs c f b k ct msg :
  In (EvUpload c f b k ct (Some msg)) (trace (download_video cfg env req fs)) ->
  outcome (download_video cfg env req fs)
  = Responded {| body := [("error", PyStr ("Upload to storage failed: " ++ msg))];
                 status := 500 |}.
Proof.
  run_cases; in_trace; reflexivity.
Qed.

Lemma X11_upload_failure_is_500_witness :
  outcome (download_video Sample.open_cfg StartupSample.refused_env
             (Sample.video_request "abc") Sample.empty_fs)
  = Responded {| body := [("error",
                           PyStr "Upload to storage failed: NoSuchBucket")];
                 status := 500 |}.
Proof.
  refine (X11_upload_failure_is_500 Sample.open_cfg StartupSample.refused_env
            (Sample.video_request "abc") Sample.empty_fs
            (get_s3_client Sample.open_cfg) "/tmp/tmpk3v9x_2a/abc.mp4"
            "source" "youtube/abc.mp4" "video/mp4" "NoSuchBucket" _).
  vm_compute. do 4 right. left. reflexivity.
Defined.

(** X12: when the storage client cannot be built ([boto3.client] raises),
    no upload call is made, and a request that got as far as measuring the
    downloaded file is answered 500 with "Upload to storage failed: "
    followed by the text of the exception. *)
Theorem X12_client_failure_is_500 cfg env req fs msg :
  boto3_client env (get_s3_client cfg) = Some msg ->
  upload_calls (trace (download_video cfg env req fs)) = []
  /\ forall p n,
      In (EvGetsize p n) (trace (download_video cfg env req fs)) ->
      outcome (download_video cfg env req fs)
      = Responded {| body := [("error",
                               PyStr ("Upload to storage failed: " ++ msg))];
                     status := 500 |}.
Proof.
  run_cases; intros Hc; try discriminate Hc; inversion Hc; subst;
    (split; [reflexivity|]); in_trace; reflexivity.
Qed.

Lemma X12_client_failure_is_500_witness :
  outcome (download_video Sample.open_cfg StartupSample.no_client_env
             (Sample.video_request "abc") Sample.empty_fs)
  = Responded {| body := [("error",
                           PyStr "Upload to storage failed: Invalid endpoint")];
                 status := 500 |}.
Proof.
  refine (proj2 (X12_client_failure_is_500 Sample.open_cfg
                   StartupSample.no_client_env (Sample.video_request "abc")
                   Sample.empty_fs "Invalid endpoint" eq_refl)
            "/tmp/tmpk3v9x_2a/abc.mp4" 4096 _).
  vm_compute. do 3 right. left. reflexivity.
Defined.

(** X13: what is uploaded.  Every upload call is made with the client of
    [get_s3_client], on the configured bucket, under the key
    "youtube/{id}.mp4" and with content type "video/mp4", and its file is
    the first name of the directory listing that ends in .mp4, .mkv or
    .webm: the key and the content type are those of an MP4 also when the
    file is a Matroska or WebM file. *)
Theorem X13_upload_arguments cfg env req fs c f b k ct e :
  In (EvUpload c f b k ct e) (trace (download_video cfg env req fs)) ->
  c = get_s3_client cfg /\ b = MINIO_BUCKET cfg /\ ct = "video/mp4"
  /\ exists data video_id names first rest,
      get_json req = inr data
      /\ resolve_video_id env data = inr video_id
      /\ k = "youtube/" ++ py_format env video_id ++ ".mp4"
      /\ In (EvListdir (mkdtemp env fs) names)
            (trace (download_video cfg env req fs))
      /\ filter (fun name => py_endswith_any name video_extensions) names
         = first :: rest
      /\ f = os_path_join (mkdtemp env fs) first.
Proof.
  run_cases; in_trace;
    (split; [reflexivity | split; [reflexivity | split; [reflexivity|]]]);
    do 5 eexists;
    (split; [reflexivity | split; [eassumption | split; [reflexivity|]]]);
    (split; [do 2 right; left; reflexivity|]);
    (split; [eassumption | reflexivity]).
Qed.

Lemma X13_upload_arguments_witness :
  "youtube/abc.mp4" = "youtube/abc.mp4" /\ "video/mp4" = "video/mp4"
  /\ exists first,
      "/tmp/tmpk3v9x_2a/abc.mkv"
      = os_path_join (mkdtemp StartupSample.mkv_env Sample.empty_fs) first.
Proof.
  destruct (X13_upload_arguments Sample.open_cfg StartupSample.mkv_env
              (Sample.video_request "abc") Sample.empty_fs
              (get_s3_client Sample.open_cfg) "/tmp/tmpk3v9x_2a/abc.mkv"
              "source" "youtube/abc.mp4" "video/mp4" None)
    as (_ & _ & Hct & data & video_id & names & first & rest
        & _ & _ & _ & _ & _ & Hf).
  - vm_compute. do 4 right. left. reflexivity.
  - split; [reflexivity|]. split; [exact Hct|]. now exists first.
Defined.

(** X14: after an upload call that succeeded, the request is either
    answered 200 or ends with the exception of [int(duration)]
    ([TypeError], [ValueError] or [OverflowError]); in the second case the
    object stays in the store although the request failed. *)
Theorem X14_after_successful_upload cfg env req fs c f b k ct :
  In (EvUpload c f b k ct None) (trace (download_video cfg env req fs)) ->
  (exists resp,
      outcome (download_video cfg env req fs) = Responded resp
      /\ status resp = 200)
  \/ (exists e,
         outcome (download_video cfg env req fs) = Raised e
         /\ (e = TypeError \/ e = ValueError \/ e = OverflowError)).
Proof.
  run_cases; in_trace;
    first [ left; eexists; split; reflexivity
          | right; eexists; split; [reflexivity|];
            eapply py_int_errors; eassumption ].
Qed.

Lemma X14_after_successful_upload_witness :
  (exists resp,
      outcome (download_video Sample.open_cfg Sample.null_duration_env
                 (Sample.video_request "abc") Sample.empty_fs)
      = Responded resp /\ status resp = 200)
  \/ (exists e,
         outcome (download_video Sample.open_cfg Sample.null_duration_env
                    (Sample.video_request "abc") Sample.empty_fs)
         = Raised e
         /\ (e = TypeError \/ e = ValueError \/ e = OverflowError)).
Proof.
  refine (X14_after_successful_upload Sample.open_cfg Sample.null_duration_env
            (Sample.video_request "abc") Sample.empty_fs
            (get_s3_client Sample.open_cfg) "/tmp/tmpk3v9x_2a/abc.mp4"
            "source" "youtube/abc.mp4" "video/mp4" _).
  vm_compute. do 4 right. left. reflexivity.
Defined.

(** The downloader is run only for a request whose body is an object
    with a non-empty string under "url", and its command line is the
    fixed one, with the output template built from the temporary
    directory and the working identifier, and the url as last argument. *)
Lemma run_event_inv cfg env req fs cmd t o :
  In (EvRun cmd t o) (trace (download_video cfg env req fs)) ->
  t = 600
  /\ exists d u video_id,
      get_json req = inr (PyDict d)
      /\ dict_get d "url" = Some (PyStr u)
      /\ u <> EmptyString
      /\ resolve_video_id env (PyDict d) = inr video_id
      /\ cmd = command_line
                 (os_path_join (mkdtemp env fs)
                               (py_format env video_id ++ ".%(ext)s")) u.
Proof.
  run_cases; in_trace; (split; [reflexivity|]);
    match goal with
    | Hg : py_get ?data "url" PyNone = inr ?a,
      Ht : negb (py_truthy ?a) = false,
      Hi : py_getitem ?data "url" = inr ?b,
      Hc : all_str (yt_dlp_cmd _ ?b) = inr _ |- _ =>
        destruct (validated_url _ _ _ Hg Ht Hi) as (d & -> & Hd & Htrue);
        destruct (all_str_command _ _ _ Hc) as (u & -> & ->)
    end;
    exists d, u; eexists;
    (split; [reflexivity | split; [assumption | split; [|split; [eassumption|reflexivity]]]]);
    intros ->; discriminate.
Qed.

(** X15: the downloader is run only for a request whose body is a JSON
    object with a non-empty string under "url"; it is run with a timeout
    of 600 seconds and the fixed command line, in which the output
    template is [os.path.join(tmpdir, "{id}.%(ext)s")] and the url, passed
    as it came, is the last argument. *)
Theorem X15_downloader_command cfg env req fs cmd t o :
  In (EvRun cmd t o) (trace (download_video cfg env req fs)) ->
  t = 600
  /\ exists d u video_id,
      get_json req = inr (PyDict d)
      /\ dict_get d "url" = Some (PyStr u)
      /\ u <> EmptyString
      /\ resolve_video_id env (PyDict d) = inr video_id
      /\ cmd = command_line
                 (os_path_join (mkdtemp env fs)
                               (py_format env video_id ++ ".%(ext)s")) u
      /\ last cmd EmptyString = u.
Proof.
  intros H. destruct (run_event_inv _ _ _ _ _ _ _ H)
    as (Ht & d & u & video_id & H1 & H2 & H3 & H4 & H5).
  split; [exact Ht|]. exists d, u, video_id. subst cmd. auto 10.
Qed.

Lemma X15_downloader_command_witness :
  exists d u video_id,
    get_json (Sample.video_request "abc") = inr (PyDict d)
    /\ dict_get d "url" = Some (PyStr u)
    /\ u <> EmptyString
    /\ resolve_video_id Sample.good_env (PyDict d) = inr video_id
    /\ command_line "/tmp/tmpk3v9x_2a/abc.%(ext)s" Sample.watch_url
       = command_line
           (os_path_join (mkdtemp Sample.good_env Sample.empty_fs)
                         (py_format Sample.good_env video_id ++ ".%(ext)s")) u
    /\ last (command_line "/tmp/tmpk3v9x_2a/abc.%(ext)s" Sample.watch_url)
            EmptyString = u.
Proof.
  refine (proj2 (X15_downloader_command Sample.open_cfg Sample.good_env
                   (Sample.video_request "abc") Sample.empty_fs
                   (command_line "/tmp/tmpk3v9x_2a/abc.%(ext)s" Sample.watch_url)
                   600
                   (CompletedProcess 0
                      (Sample.record "212" ++ String newline EmptyString)
                      EmptyString) _)).
  vm_compute. right. left. reflexivity.
Defined.

(** X16: a url that is present and truthy but not a string (the number
    5, say) passes the validation of a request that the auth check lets
    through, and then makes the view raise [TypeError] when the command
    line is joined for the log: the temporary directory is created and
    removed again, and the downloader is not run. *)
Theorem X16_non_string_url_raises cfg env req fs d url :
  API_SECRET cfg = EmptyString
  \/ authorization req = Some ("Bearer " ++ API_SECRET cfg) ->
  get_json req = inr (PyDict d) ->
  dict_get d "url" = Some url ->
  py_truthy url = true ->
  (forall s, url <> PyStr s) ->
  outcome (download_video cfg env req fs) = Raised TypeError
  /\ trace (download_video cfg env req fs)
     = [EvMkdtemp (mkdtemp env fs); EvCleanup (mkdtemp env fs)].
Proof.
  intros Hauth Hjson Hurl Htruthy Hnot.
  assert (Hrun : download_video cfg env req fs
                 = run_view (validate_and_process cfg env req) fs).
  { unfold download_video, download_video_view, check_auth, bind, run_view.
    destruct Hauth as [Hs|Hh].
    - rewrite Hs. reflexivity.
    - destruct (py_truthy (PyStr (API_SECRET cfg))); [|reflexivity].
      rewrite Hh, String.eqb_refl. reflexivity. }
  rewrite Hrun. clear Hrun Hauth.
  assert (Hdict : py_truthy (PyDict d) = true).
  { destruct d; [discriminate Hurl | reflexivity]. }
  unfold run_view, validate_and_process, bind, lift, ret.
  rewrite Hjson. cbn [ret]. rewrite Hdict. cbn [negb py_get py_getitem].
  rewrite Hurl. cbn [ret]. rewrite Htruthy. cbn [negb].
  unfold resolve_video_id, py_get.
  destruct (dict_get d "videoId") as [video_id|];
    unfold with_TemporaryDirectory, download_and_upload, bind, lift;
    match goal with
    | |- context [all_str (yt_dlp_cmd ?out url)] =>
        destruct (all_str (yt_dlp_cmd out url)) as [e|cmd] eqn:Hcmd;
        [ apply all_str_error in Hcmd; subst e; split; reflexivity
        | destruct (all_str_command _ _ _ Hcmd) as (u & Hu & _);
          now elim (Hnot u) ]
    end.
Qed.

Lemma X16_non_string_url_raises_witness :
  outcome (download_video Sample.open_cfg Sample.good_env
             (Sample.request None (PyDict [("url", PyInt 5)])) Sample.empty_fs)
  = Raised TypeError
  /\ trace (download_video Sample.open_cfg Sample.good_env
              (Sample.request None (PyDict [("url", PyInt 5)])) Sample.empty_fs)
     = [EvMkdtemp Sample.tmp; EvCleanup Sample.tmp].
Proof.
  apply (X16_non_string_url_raises Sample.open_cfg Sample.good_env
           (Sample.request None (PyDict [("url", PyInt 5)]))
           Sample.empty_fs [("url", PyInt 5)] (PyInt 5)).
  - left. reflexivity.
  - reflexivity.
  - reflexivity.
  - reflexivity.
  - discriminate.
Defined.

Lemma os_path_join_absolute (a b tail : string) :
  String.prefix "/" b = true -> os_path_join a (b ++ tail) = b ++ tail.
Proof.
  intros H. unfold os_path_join.
  destruct b as [|c b]; [discriminate H|].
  change (String.prefix "/" (String c b))
    with (if ascii_dec "/" c then String.prefix EmptyString b else false) in H.
  destruct (ascii_dec "/" c) as [<-|]; [|discriminate H].
  cbn. now destruct (b ++ tail).
Qed.

(** X17: a videoId that is a string starting with "/" takes the download
    out of the temporary directory: [os.path.join] drops the directory,
    and the output template handed to the downloader is the videoId
    itself followed by ".%(ext)s". *)
Theorem X17_absolute_videoId_leaves_tmpdir cfg env req fs cmd t o d v :
  In (EvRun cmd t o) (trace (download_video cfg env req fs)) ->
  get_json req = inr (PyDict d) ->
  dict_get d "videoId" = Some (PyStr v) ->
  String.prefix "/" v = true ->
  exists u, cmd = command_line (v ++ ".%(ext)s") u.
Proof.
  intros Hin Hj Hv Hp.
  destruct (run_event_inv _ _ _ _ _ _ _ Hin)
    as (_ & d' & u & video_id & H1 & _ & _ & H4 & H5).
  rewrite Hj in H1. inversion H1; subst d'.
  rewrite (resolve_video_id_present env d _ Hv) in H4. inversion H4; subst.
  exists u. cbn [py_format]. now rewrite os_path_join_absolute.
Qed.

Lemma X17_absolute_videoId_leaves_tmpdir_witness :
  exists u,
    command_line "/var/www/abc.%(ext)s" Sample.watch_url
    = command_line ("/var/www/abc" ++ ".%(ext)s") u.
Proof.
  refine (X17_absolute_videoId_leaves_tmpdir Sample.open_cfg Sample.good_env
            (Sample.video_request "/var/www/abc") Sample.empty_fs
            (command_line "/var/www/abc.%(ext)s" Sample.watch_url) 600
            (CompletedProcess 0
               (Sample.record "212" ++ String newline EmptyString) EmptyString)
            [("url", PyStr Sample.watch_url);
             ("videoId", PyStr "/var/www/abc")] "/var/www/abc"
            _ eq_refl eq_refl eq_refl).
  vm_compute. right. left. reflexivity.
Defined.

(** ** The line that is parsed *)

Lemma lstrip_with_head (p : ascii -> bool) (s : string) (c : ascii) (t : string) :
  lstrip_with p s = String c t -> p c = false.
Proof.
  induction s as [|x s IH]; cbn [lstrip_with]; [discriminate|].
  destruct (p x) eqn:Hx; [exact IH|].
  intros H. inversion H; subst. exact Hx.
Qed.

Lemma lstrip_with_append_fixed (p : ascii -> bool) (s t : string) :
  lstrip_with p s = s -> s <> EmptyString ->
  lstrip_with p (s ++ t) = s ++ t.
Proof.
  destruct s as [|c s]; [congruence|]. intros H _.
  apply lstrip_with_head in H. cbn [append lstrip_with]. now rewrite H.
Qed.

Lemma lstrip_with_append_keep (p : ascii -> bool) (a b : string) :
  lstrip_with p b = b ->
  lstrip_with p (a ++ b) = lstrip_with p a ++ b.
Proof.
  intros Hb. induction a as [|c a IH]; cbn [append lstrip_with]; [exact Hb|].
  destruct (p c); [exact IH | reflexivity].
Qed.

Lemma lstrip_with_all_space (ws s : string) :
  all_space ws = true ->
  lstrip_with is_space (ws ++ s) = lstrip_with is_space s.
Proof.
  induction ws as [|c ws IH]; cbn [all_space append lstrip_with]; [reflexivity|].
  intros H. apply andb_true_iff in H as [Hc Hws]. rewrite Hc. auto.
Qed.

Lemma all_space_append (a b : string) :
  all_space (a ++ b) = all_space a && all_space b.
Proof.
  induction a as [|c a IH]; cbn [all_space append]; [reflexivity|].
  now rewrite IH, andb_assoc.
Qed.

Lemma all_space_rev (s : string) : all_space (string_rev s) = all_space s.
Proof.
  induction s as [|c s IH]; [reflexivity|].
  change (String c s) with (String c EmptyString ++ s) at 1.
  rewrite string_rev_append, all_space_append, IH.
  change (string_rev (String c EmptyString)) with (String c EmptyString).
  cbn [all_space]. now rewrite andb_true_r, andb_comm.
Qed.

Lemma string_rev_empty_inv (s : string) :
  string_rev s = EmptyString -> s = EmptyString.
Proof.
  intros H. apply (f_equal string_rev) in H.
  now rewrite string_rev_involutive in H.
Qed.

(** Stripping on the right removes a white tail and stops at a text that
    does not end in white space. *)
Lemma rstrip_with_tail (a line trail : string) :
  rstrip_with is_space line = line -> line <> EmptyString ->
  all_space trail = true ->
  rstrip_with is_space (a ++ line ++ trail) = a ++ line.
Proof.
  intros Hline Hne Htrail. unfold rstrip_with in *.
  rewrite <- append_assoc, !string_rev_append.
  rewrite lstrip_with_all_space by now rewrite all_space_rev.
  apply (f_equal string_rev) in Hline. rewrite string_rev_involutive in Hline.
  rewrite lstrip_with_append_fixed; [| exact Hline |].
  - now rewrite string_rev_append, !string_rev_involutive.
  - intros H. now apply string_rev_empty_inv in H.
Qed.

Lemma lstrip_with_before (p : ascii -> bool) (a : string) (c : ascii) :
  lstrip_with p (a ++ String c EmptyString) = EmptyString
  \/ exists a', lstrip_with p (a ++ String c EmptyString)
                = a' ++ String c EmptyString.
Proof.
  induction a as [|x a IH]; cbn [append lstrip_with].
  - destruct (p c); [now left | right; now exists EmptyString].
  - destruct (p x); [exact IH|]. right. now exists (String x a).
Qed.

Lemma py_split_one_line (s : string) :
  one_line s = true -> py_split newline s = [s].
Proof.
  induction s as [|c s IH]; cbn [one_line py_split]; [reflexivity|].
  intros H. apply andb_true_iff in H as [Hc Hs].
  apply negb_true_iff in Hc. rewrite Hc, (IH Hs). reflexivity.
Qed.

Lemma py_split_after_newline (a line : string) :
  exists h t,
    py_split newline (a ++ String newline line)
    = ((h :: t) ++ py_split newline line)%list.
Proof.
  induction a as [|c a (h & t & IH)]; cbn [append py_split].
  - exists EmptyString, []. now rewrite Ascii.eqb_refl.
  - rewrite IH. destruct (Ascii.eqb c newline).
    + now exists EmptyString, (h :: t).
    + now exists (String c h), t.
Qed.

Lemma py_last_app {A : Type} (l : list A) (x : A) : py_last (l ++ [x]) = inr x.
Proof. unfold py_last. now rewrite rev_app_distr. Qed.

Lemma last_line_core (head line trail : string) :
  head = EmptyString \/ (exists pre, head = pre ++ String newline EmptyString) ->
  one_line line = true -> line <> EmptyString ->
  lstrip_with is_space line = line -> rstrip_with is_space line = line ->
  all_space trail = true ->
  last_line (head ++ line ++ trail) = inr line.
Proof.
  intros Hhead Hone Hne Hl Hr Htrail. unfold last_line, py_strip.
  rewrite (lstrip_with_append_keep is_space head (line ++ trail))
    by now apply lstrip_with_append_fixed.
  rewrite rstrip_with_tail by assumption.
  assert (Hshape : lstrip_with is_space head = EmptyString
                   \/ exists a', lstrip_with is_space head
                                 = a' ++ String newline EmptyString).
  { destruct Hhead as [->|[pre ->]]; [now left | apply lstrip_with_before]. }
  destruct Hshape as [->|[a' ->]].
  - cbn [append]. rewrite py_split_one_line by assumption. reflexivity.
  - rewrite append_assoc. cbn [append].
    destruct (py_split_after_newline a' line) as (h & t & ->).
    rewrite py_split_one_line by assumption. apply py_last_app.
Qed.

(** X18: the text handed to [json.loads] is the last line of the output
    that is not blank.  For a one-line text [line] without white space at
    its ends, whatever was printed on earlier lines and whatever white
    space follows are ignored: the output parses as [line] alone does. *)
Theorem X18_last_line_is_parsed env pre line trail :
  one_line line = true -> line <> EmptyString ->
  lstrip_with is_space line = line -> rstrip_with is_space line = line ->
  all_space trail = true ->
  last_line (pre ++ String newline (line ++ trail)) = inr line
  /\ last_line (line ++ trail) = inr line
  /\ metadata_duration env (pre ++ String newline (line ++ trail))
     = metadata_duration env line.
Proof.
  intros Hone Hne Hl Hr Htrail.
  assert (H1 : last_line (pre ++ String newline (line ++ trail)) = inr line).
  { change (pre ++ String newline (line ++ trail))
      with (pre ++ String newline EmptyString ++ line ++ trail).
    rewrite <- append_assoc.
    apply last_line_core; auto. right. now exists pre. }
  assert (H2 : last_line (line ++ trail) = inr line).
  { apply (last_line_core EmptyString); auto. }
  assert (H3 : last_line line = inr line).
  { rewrite <- (append_empty_r line) at 1.
    apply (last_line_core EmptyString); auto. }
  repeat split; [exact H1 | exact H2 |].
  unfold metadata_duration. now rewrite H1, H3.
Qed.

Lemma X18_last_line_is_parsed_witness :
  last_line ("[youtube] Extracting URL" ++ String newline
               (Sample.record "212" ++ String newline EmptyString))
  = inr (Sample.record "212").
Proof.
  apply (X18_last_line_is_parsed Sample.good_env "[youtube] Extracting URL"
           (Sample.record "212") (String newline EmptyString));
    solve [reflexivity | discriminate].
Defined.

(** ** The storage endpoint *)

Lemma rstrip_slash_fixed (s : string) :
  py_endswith s "/" = false -> rstrip_slash s = s.
Proof.
  intros H. rewrite py_endswith_char in H.
  unfold rstrip_slash, rstrip_with.
  destruct (string_rev s) as [|c r] eqn:E.
  - cbn. now apply string_rev_empty_inv in E.
  - cbn [lstrip_with].
    destruct (Ascii.eqb_spec c "/"%char) as [->|Hc].
    + cbn in H. now destruct r.
    + rewrite <- E. apply string_rev_involutive.
Qed.

(** X19: the endpoint the storage client is built with, which is also the
    prefix of the sourceUrl, is the configured endpoint without its
    trailing slashes, all of them: it never ends in "/", stripping it
    again changes nothing, and an endpoint configured without a trailing
    slash is used as it is. *)
Theorem X19_client_endpoint cfg :
  (exists k, MINIO_ENDPOINT cfg
             = endpoint_url (get_s3_client cfg) ++ copies k "/"%char)
  /\ py_endswith (endpoint_url (get_s3_client cfg)) "/" = false
  /\ rstrip_slash (endpoint_url (get_s3_client cfg))
     = endpoint_url (get_s3_client cfg)
  /\ (py_endswith (MINIO_ENDPOINT cfg) "/" = false ->
      endpoint_url (get_s3_client cfg) = MINIO_ENDPOINT cfg).
Proof.
  cbn [get_s3_client endpoint_url].
  destruct (rstrip_slash_spec (MINIO_ENDPOINT cfg)) as [k [H1 H2]].
  split; [now exists k|]. split; [exact H2|].
  split; [now apply rstrip_slash_fixed | apply rstrip_slash_fixed].
Qed.

Lemma X19_client_endpoint_witness :
  endpoint_url
    (get_s3_client {| MINIO_ENDPOINT := "http://localhost:9000";
                      MINIO_ACCESS_KEY := "minioadmin";
                      MINIO_SECRET_KEY := "minioadmin";
                      MINIO_BUCKET := "source";
                      API_SECRET := EmptyString |})
  = "http://localhost:9000".
Proof.
  apply (proj2 (proj2 (proj2
           (X19_client_endpoint
              {| MINIO_ENDPOINT := "http://localhost:9000";
                 MINIO_ACCESS_KEY := "minioadmin";
                 MINIO_SECRET_KEY := "minioadmin";
                 MINIO_BUCKET := "source";
                 API_SECRET := EmptyString |})))).
  reflexivity.
Defined.

(** ** The route table, once more *)

(** X20: the view [health] is called for GET and for HEAD on the path
    /health, and for no other request line. *)
Theorem X20_routes (m : Method) (p : string) :
  dispatch m p = View health <-> p = "/health" /\ (m = GET \/ m = HEAD).
Proof.
  unfold dispatch, url_map. cbn [dispatch_in].
  destruct (String.eqb_spec "/health" p) as [E|E].
  - subst p. split.
    + destruct m; cbn; intros H; try discriminate H; auto.
    + intros [_ [->| ->]]; reflexivity.
  - destruct (String.eqb_spec "/api/download" p) as [E'|E'].
    + subst p. split; [destruct m; discriminate | intros [H _]; discriminate H].
    + split; [discriminate | intros [H _]; congruence].
Qed.

Lemma X20_routes_witness :
  dispatch HEAD "/health" = View health.
Proof.
  apply (proj2 (X20_routes HEAD "/health")). split; [reflexivity | now right].
Defined.

(** ** Validation and the missing file, in general *)

(** X21: once the auth check is passed and the body has been read as
    [data], the request is answered 400 exactly when [data] is falsy
    (null, false, 0, an empty string, list or object) or is an object
    whose "url" is absent or falsy; the answer is then the error
    "url is required", and nothing outside the view has been touched. *)
Theorem X21_missing_url_iff_400 cfg env req fs data :
  get_json req = inr data ->
  ((exists resp,
       outcome (run_view (validate_and_process cfg env req) fs) = Responded resp
       /\ status resp = 400)
   <-> (py_truthy data = false
        \/ exists d, data = PyDict d
                     /\ match dict_get d "url" with
                        | Some u => py_truthy u = false
                        | None => True
                        end))
  /\ (forall resp,
         outcome (run_view (validate_and_process cfg env req) fs) = Responded resp ->
         status resp = 400 ->
         resp = {| body := [("error", PyStr "url is required")]; status := 400 |}
         /\ trace (run_view (validate_and_process cfg env req) fs) = []).
Proof.
  intros Hdata. split; [split|].
  - revert Hdata.
    run_cases; intros Hdata (resp & Ho & Hs); inversion Hdata; subst;
      inversion Ho; subst resp; cbn [status] in Hs; try discriminate Hs.
    + left. now apply negb_true_iff.
    + right.
      match goal with
      | Hg : py_get ?data "url" PyNone = inr ?a,
        Ht : negb (py_truthy ?a) = true |- _ =>
          apply negb_true_iff in Ht;
          destruct data; cbn [py_get] in Hg; try discriminate Hg;
          eexists; split; [reflexivity|];
          destruct (dict_get d "url"); inversion Hg; subst; auto
      end.
  - intros Hbad.
    rewrite (missing_url_is_400 cfg env req fs data Hdata Hbad).
    cbn [outcome]. eexists. split; reflexivity.
  - run_cases; intros resp Ho Hs; inversion Ho; subst resp;
      cbn [status] in Hs; try discriminate Hs; split; reflexivity.
Qed.

Lemma X21_missing_url_iff_400_witness :
  exists resp,
    outcome (run_view (validate_and_process Sample.open_cfg Sample.good_env
                         (Sample.request None
                            (PyDict [("videoId", PyStr "abc")])))
               Sample.empty_fs) = Responded resp
    /\ status resp = 400.
Proof.
  apply (proj2 (proj1 (X21_missing_url_iff_400 Sample.open_cfg Sample.good_env
                         (Sample.request None (PyDict [("videoId", PyStr "abc")]))
                         Sample.empty_fs (PyDict [("videoId", PyStr "abc")])
                         eq_refl))).
  right. exists [("videoId", PyStr "abc")]. split; [reflexivity | exact I].
Defined.

(** X22: when the view has listed the temporary directory and no name in
    it ends in .mp4, .mkv or .webm, the answer is 500 with the error
    "No video file found after download", and the storage client is not
    called. *)
Theorem X22_no_video_file_is_500 cfg env req fs d names :
  In (EvListdir d names) (trace (download_video cfg env req fs)) ->
  filter (fun f => py_endswith_any f video_extensions) names = [] ->
  outcome (download_video cfg env req fs)
  = Responded {| body := [("error", PyStr "No video file found after download")];
                 status := 500 |}
  /\ upload_calls (trace (download_video cfg env req fs)) = [].
Proof. apply no_video_file_is_500. Qed.

Lemma X22_no_video_file_is_500_witness :
  outcome (download_video Sample.open_cfg
             (Sample.env (CompletedProcess 0 EmptyString EmptyString)
                [("abc.info.json", 2048); ("abc.mp4.part", 4096)] None [])
             (Sample.video_request "abc") Sample.empty_fs)
  = Responded {| body := [("error", PyStr "No video file found after download")];
                 status := 500 |}.
Proof.
  refine (proj1 (X22_no_video_file_is_500 Sample.open_cfg
                   (Sample.env (CompletedProcess 0 EmptyString EmptyString)
                      [("abc.info.json", 2048); ("abc.mp4.part", 4096)] None [])
                   (Sample.video_request "abc") Sample.empty_fs
                   Sample.tmp ["abc.info.json"; "abc.mp4.part"] _ _)).
  - vm_compute. do 2 right. left. reflexivity.
  - reflexivity.
Defined.

(** ** The duration of a successful answer *)














(** ** Files written outside the temporary directory *)

(** With a relative videoId the downloaded file lies in the temporary
    directory and is removed with it. *)
Lemma relative_videoId_file_is_removed :
  outcome (download_video Sample.open_cfg OutputSample.honouring_env
             (Sample.video_request "abc") Sample.empty_fs)
  = Responded (Sample.good_response "abc")
  /\ size (final_fs (download_video Sample.open_cfg OutputSample.honouring_env
                       (Sample.video_request "abc") Sample.empty_fs))
          "/tmp/tmpk3v9x_2a/abc.mp4" = None.
Proof. split; vm_compute; reflexivity. Qed.

(** C9 fails on the code: for the videoId "/var/www/abc" the output
    template handed to the downloader is "/var/www/abc.%(ext)s", outside
    the temporary directory that the request created.  A downloader that
    writes where it is told stages the file /var/www/abc.mp4, which did not
    exist before; the view finds nothing in its directory, answers 500 and
    removes the directory, and the staged file survives the request. *)
Theorem C9_staged_file_outside_tmpdir_survives :
  In (EvMkdtemp Sample.tmp)
     (trace (download_video Sample.open_cfg OutputSample.honouring_env
               (Sample.video_request "/var/www/abc") Sample.empty_fs))
  /\ OutputSample.output_template
       (match
           trace (download_video Sample.open_cfg OutputSample.honouring_env
                    (Sample.video_request "/var/www/abc") Sample.empty_fs)
         with
         | _ :: EvRun cmd _ _ :: _ => cmd
         | _ => []
         end) = "/var/www/abc.%(ext)s"
  /\ size Sample.empty_fs "/var/www/abc.mp4" = None
  /\ size (final_fs (download_video Sample.open_cfg OutputSample.honouring_env
                       (Sample.video_request "/var/www/abc") Sample.empty_fs))
          "/var/www/abc.mp4" = Some 1048576
  /\ listing (final_fs (download_video Sample.open_cfg
                          OutputSample.honouring_env
                          (Sample.video_request "/var/www/abc")
                          Sample.empty_fs)) Sample.tmp = None
  /\ outcome (download_video Sample.open_cfg OutputSample.honouring_env
                (Sample.video_request "/var/www/abc") Sample.empty_fs)
     = Responded {| body := [("error",
                              PyStr "No video file found after download")];
                    status := 500 |}.
Proof.
  split; [vm_compute; left; reflexivity|].
  repeat split; vm_compute; reflexivity.
Qed.
